(** * D11 Safety HUD: risk engine, telemetry generator, proposal engine, audit log

    A shallow embedding of [app.py].  Python floats are read as exact
    rationals ([Q]): every comparison, clamp and threshold of the program is
    kept, rounding of the binary64 arithmetic is not modelled.  Where an
    outcome hangs on how one operation rounds (the seed taken from the
    clock, the bucket of the time to contact) the operation is the binary64
    one.  Python ints are [Z], strings are [string], dicts are
    insertion-ordered association lists.  [time.time()] readings are explicit
    arguments. *)

From Stdlib Require Import ZArith QArith Qround Qabs Qminmax Lia Lqa.
From Stdlib Require Import List String Ascii Bool DecimalString FinFun.
From Stdlib Require Import DecimalPos DecimalZ SpecFloat.
Import ListNotations.
Open Scope Q_scope.

(** ** Python built-ins used by the program *)

Definition Qltb (a b : Q) : bool := negb (Qle_bool b a).

(** [min(a, b)] returns [b] only when [b < a]; [max(a, b)] only when [b > a]. *)
Definition py_min (a b : Q) : Q := if Qltb b a then b else a.
Definition py_max (a b : Q) : Q := if Qltb a b then b else a.

(** [int(x)] truncates toward zero. *)
Definition py_int (x : Q) : Z :=
  if Qle_bool 0 x then Qfloor x else Qceiling x.

(** [round(x)] rounds to the nearest integer, ties to the even one. *)
Definition py_round (x : Q) : Z :=
  let f := Qfloor x in
  let d := x - inject_Z f in
  if Qltb d (1 # 2) then f
  else if Qltb (1 # 2) d then (f + 1)%Z
  else if Z.even f then f else (f + 1)%Z.

(** ** Binary64 arithmetic

    The float operations of IEEE 754 binary64 (53 bits of precision,
    exponents up to 1024), from the executable specification [SpecFloat] of
    the Standard Library: correctly rounded, with infinities and NaN. *)

Definition b64 : Type := spec_float.

Definition b64_mul (x y : b64) : b64 := SFmul 53 1024 x y.
Definition b64_div (x y : b64) : b64 := SFdiv 53 1024 x y.

(** [float(n)] for an integer. *)
Definition b64_of_Z (z : Z) : b64 := binary_normalize 53 1024 z 0 false.

(** The float with the value [q] when [q] is a binary64 value, as the
    values of float variables and the clock readings are; for a decimal
    literal, the float it denotes. *)
Definition b64_of_Q (q : Q) : b64 :=
  let r := Qred q in
  b64_div (b64_of_Z (Qnum r)) (b64_of_Z (Zpos (Qden r))).

(** [int(x)] on a float truncates toward zero; [None] where it raises, on
    an infinity or a NaN. *)
Definition b64_int (x : b64) : option Z :=
  match x with
  | S754_zero _ => Some 0%Z
  | S754_finite s m e =>
    let a := if (0 <=? e)%Z then Z.shiftl (Zpos m) e else Z.shiftr (Zpos m) (- e) in
    Some (if s then (- a)%Z else a)
  | S754_infinity _ => None
  | S754_nan => None
  end.

(** [max(a, b)] on floats returns [b] only when [a < b]. *)
Definition b64_max (a b : b64) : b64 := if SFltb a b then b else a.

(** [clamp] on Python ints. *)
Definition clamp_int (v lo hi : Z) : Z := Z.max lo (Z.min hi v).

(** ** Risk and physics helpers (app.py, lines 153-222) *)

Definition clamp (v lo hi : Q) : Q := py_max lo (py_min hi v).

Definition compute_rollover_risk (grade_pct roll_deg speed_kph : Q) : Q :=
  let grade_factor := Qabs grade_pct / 25.0 in
  let roll_factor := Qabs roll_deg / 20.0 in
  let speed_factor := speed_kph / 12.0 in
  let base := 55 * roll_factor + 30 * grade_factor + 25 * speed_factor in
  clamp base 0 100.

Definition compute_slip_risk (grade_pct moisture firmness speed_kph : Q) : Q :=
  let downhill_factor := clamp (grade_pct / 20.0) (-1.2) 1.2 in
  let downhill_factor := py_max 0.0 downhill_factor in
  let moisture_factor := moisture in
  let softness_factor := 1.0 - firmness in
  let speed_factor := speed_kph / 10.0 in
  let base := 40 * downhill_factor + 35 * moisture_factor
              + 35 * softness_factor + 20 * speed_factor in
  clamp base 0 100.

Definition compute_gnss_confidence (hdop jitter_m visibility : Q) : Q :=
  let hdop_term := clamp ((3.5 - hdop) / 3.5) 0.0 1.0 in
  let jitter_term := clamp ((3.0 - jitter_m) / 3.0) 0.0 1.0 in
  let vis_term := clamp visibility 0.0 1.0 in
  let conf := 0.45 * hdop_term + 0.35 * jitter_term + 0.20 * vis_term in
  clamp (conf * 100.0) 0 100.

Definition compute_obstacle_risk (distance_m speed_kph : Q) : Q :=
  if Qle_bool 80 distance_m || Qeq_bool distance_m 999 then 0.0
  else
    let speed_mps := speed_kph / 3.6 in
    let speed_mps := if Qltb speed_mps 0.1 then 0.1 else speed_mps in
    let ttc := distance_m / speed_mps in
    let base :=
      if Qltb 40 ttc then 10
      else if Qltb 20 ttc then 35
      else if Qltb 10 ttc then 60
      else 85 in
    clamp base 0 100.

(** Lines 190-206 in binary64: the two divisions round, and a time to
    contact that lands on 40, 20 or 10 takes the bucket below. *)
Definition compute_obstacle_risk_b64 (distance_m speed_kph : b64) : b64 :=
  if SFleb (b64_of_Z 80) distance_m || SFeqb distance_m (b64_of_Z 999)
  then b64_of_Z 0
  else
    let speed_mps := b64_div speed_kph (b64_of_Q 3.6) in
    let speed_mps :=
      if SFltb speed_mps (b64_of_Q 0.1) then b64_of_Q 0.1 else speed_mps in
    let ttc := b64_div distance_m speed_mps in
    let base :=
      if SFltb (b64_of_Z 40) ttc then 10%Z
      else if SFltb (b64_of_Z 20) ttc then 35%Z
      else if SFltb (b64_of_Z 10) ttc then 60%Z
      else 85%Z in
    b64_of_Z (clamp_int base 0 100).

Definition compute_overall_risk (rollover slip obstacle gnss_conf : Q) : Q :=
  let gnss_penalty := (100 - gnss_conf) * 0.25 in
  let base := 0.38 * rollover + 0.34 * slip + 0.28 * obstacle + gnss_penalty in
  clamp base 0 100.

Definition classify_state (overall_risk : Q) : string :=
  if Qltb overall_risk 25 then "STABLE"%string
  else if Qltb overall_risk 50 then "ELEVATED"%string
  else if Qltb overall_risk 75 then "HIGH"%string
  else "CRITICAL"%string.

(** ** Data structures (app.py, lines 75-129) *)

Record TelemetryRow : Type := mkTelemetryRow {
  tick : Z;
  ts : Q;
  (* machine state *)
  speed_kph : Q;
  gear : Z;
  engine_rpm : Z;
  grade_pct : Q;
  roll_deg : Q;
  pitch_deg : Q;
  blade_load_pct : Q;
  fuel_pct : Q;
  (* environment / footing *)
  ground_firmness : Q;
  moisture_index : Q;
  visibility : Q;
  (* sensing *)
  gnss_hdop : Q;
  gnss_jitter_m : Q;
  obstacle_distance_m : Q;
  obstacle_bearing_deg : Q;
  (* operator state *)
  shift_hours : Q;
  micro_corrections_per_min : Q;
  (* risks *)
  rollover_risk : Q;
  slip_risk : Q;
  obstacle_risk : Q;
  gnss_confidence : Q;
  overall_risk : Q;
  state : string
}.

(** Values stored in the [Dict[str, Any]] of a snapshot or of an audit
    entry, and the dict itself in insertion order. *)
Inductive PyVal : Type :=
| PInt (z : Z)
| PFloat (q : Q)
| PStr (s : string).

Definition PyDict : Type := list (string * PyVal).

Record Proposal : Type := mkProposal {
  proposal_id : Z;
  created_ts : Q;
  title : string;
  rationale : string;
  status : string;   (* PENDING / APPROVED / REJECTED / DEFERRED *)
  snapshot : PyDict
}.

Record AuditEntry : Type := mkAuditEntry {
  entry_ts : Q;
  kind : string;
  summary : string;
  meta : PyDict
}.

(** ** Session state (app.py, lines 135-148)

    [ss_history] holds the rows as [asdict] stores them, one dict per row
    with exactly the fields of [TelemetryRow]; it is kept as the row itself. *)
Record SessionState : Type := mkSessionState {
  ss_tick : Z;
  ss_running : bool;
  ss_last_update : Q;
  ss_history : list TelemetryRow;
  ss_proposals : list Proposal;
  ss_audit : list AuditEntry;
  ss_next_proposal_id : Z
}.

Definition init_state (now : Q) : SessionState :=
  {| ss_tick := 0;
     ss_running := false;
     ss_last_update := now;
     ss_history := [];
     ss_proposals := [];
     ss_audit := [];
     ss_next_proposal_id := 1 |}.

(** ** Audit log (app.py, lines 156-160) *)

(** The slice [xs[-n:]] for [n > 0]: the last [n] elements, all of them when
    the list is shorter. *)
Definition py_last {A : Type} (n : nat) (xs : list A) : list A :=
  skipn (List.length xs - n) xs.

(** [meta or {}]: [None] and the empty dict both give the empty dict. *)
Definition meta_or_empty (m : option PyDict) : PyDict :=
  match m with
  | None => []
  | Some d => d
  end.

Definition log_audit (now : Q) (knd smry : string) (m : option PyDict)
    (ss : SessionState) : SessionState :=
  let appended := ss_audit ss ++ [mkAuditEntry now knd smry (meta_or_empty m)] in
  {| ss_tick := ss_tick ss;
     ss_running := ss_running ss;
     ss_last_update := ss_last_update ss;
     ss_history := ss_history ss;
     ss_proposals := ss_proposals ss;
     ss_audit := py_last 150 appended;
     ss_next_proposal_id := ss_next_proposal_id ss |}.

(** ** The random source

    [generate_tick] builds a numpy [Generator] from a seed and draws from it
    with [normal], [random] and [uniform].  The bit generator is an
    interface: a state made from a seed, a raw 64-bit output and a standard
    normal variate, each returning the advanced state.  The three draws are
    numpy's: [random()] keeps the top 53 bits of a raw output,
    [uniform(lo, hi)] is [lo + (hi - lo) * random()], and [normal(loc, scale)]
    is [loc + scale * standard_normal()]. *)
Class BitGenerator (G : Type) : Type := {
  default_rng : Z -> G;
  next_uint64 : G -> Z * G;
  standard_normal : G -> Q * G
}.

Section Draws.
Context {G : Type} `{BitGenerator G}.

Definition rng_random (g : G) : Q * G :=
  let '(w, g') := next_uint64 g in
  (Z.shiftr (w mod 2 ^ 64) 11 # 9007199254740992, g').

Definition rng_uniform (g : G) (low high : Q) : Q * G :=
  let '(u, g') := rng_random g in
  (low + (high - low) * u, g').

Definition rng_normal (g : G) (loc scale : Q) : Q * G :=
  let '(z, g') := standard_normal g in
  (loc + scale * z, g').
End Draws.

(** A small linear congruential generator, used to run the program on
    concrete inputs.  It stands in for numpy's PCG64 only as an inhabitant of
    the interface. *)
Definition lcg_next (s : Z) : Z :=
  ((6364136223846793005 * s + 1442695040888963407) mod 2 ^ 64)%Z.

#[export] Instance LcgGenerator : BitGenerator Z := {
  default_rng := fun seed => lcg_next seed;
  next_uint64 := fun s => (s, lcg_next s);
  standard_normal := fun s => ((Z.shiftr s 52 mod 4001 - 2000) # 1000, lcg_next s)
}.

(** ** Synthetic telemetry generator (app.py, lines 227-387)

    The working variables of [generate_tick].  The [if prev is None / else]
    statement (lines 233-269) only initialises them, from the defaults or from
    the previous row; everything from line 272 on runs after it on both
    paths, down to the [return] that both paths need: the caller reads
    [latest_row.tick] after a cold start as after any other call, and the
    two branches assign exactly the variables that the step goes on to
    update. *)
Record Working : Type := mkWorking {
  w_speed_kph : Q;
  w_gear : Z;
  w_engine_rpm : Z;
  w_grade_pct : Q;
  w_roll_deg : Q;
  w_pitch_deg : Q;
  w_blade_load_pct : Q;
  w_fuel_pct : Q;
  w_ground_firmness : Q;
  w_moisture_index : Q;
  w_visibility : Q;
  w_gnss_hdop : Q;
  w_gnss_jitter_m : Q;
  w_obstacle_distance_m : Q;
  w_obstacle_bearing_deg : Q;
  w_shift_hours : Q;
  w_micro_corr : Q
}.

(** Lines 233-250. *)
Definition cold_start : Working :=
  {| w_speed_kph := 0.0;
     w_gear := 1;
     w_engine_rpm := 800;
     w_grade_pct := 0.0;
     w_roll_deg := 0.0;
     w_pitch_deg := 0.0;
     w_blade_load_pct := 0.0;
     w_fuel_pct := 90.0;
     w_ground_firmness := 0.7;
     w_moisture_index := 0.3;
     w_visibility := 0.9;
     w_gnss_hdop := 0.8;
     w_gnss_jitter_m := 0.3;
     w_obstacle_distance_m := 999.0;
     w_obstacle_bearing_deg := 0.0;
     w_shift_hours := 2.0;
     w_micro_corr := 22.0 |}.

(** Lines 251-269. *)
Definition from_prev (prev : TelemetryRow) : Working :=
  {| w_speed_kph := speed_kph prev;
     w_gear := gear prev;
     w_engine_rpm := engine_rpm prev;
     w_grade_pct := grade_pct prev;
     w_roll_deg := roll_deg prev;
     w_pitch_deg := pitch_deg prev;
     w_blade_load_pct := blade_load_pct prev;
     w_fuel_pct := fuel_pct prev;
     w_ground_firmness := ground_firmness prev;
     w_moisture_index := moisture_index prev;
     w_visibility := visibility prev;
     w_gnss_hdop := gnss_hdop prev;
     w_gnss_jitter_m := gnss_jitter_m prev;
     w_obstacle_distance_m := obstacle_distance_m prev;
     w_obstacle_bearing_deg := obstacle_bearing_deg prev;
     w_shift_hours := shift_hours prev;
     w_micro_corr := micro_corrections_per_min prev |}.

Definition initial_working (prev : option TelemetryRow) : Working :=
  match prev with
  | None => cold_start
  | Some p => from_prev p
  end.

(** [int(base_ts * 1000) % (2**32 - 1)], line 231.  The product is the
    binary64 one, rounded before [int] truncates it.  [int] raises when the
    product is not finite, which no clock reading reaches; 0 stands there. *)
Definition seed_of (base_ts : Q) : Z :=
  match b64_int (b64_mul (b64_of_Q base_ts) (b64_of_Z 1000)) with
  | Some n => (n mod (2 ^ 32 - 1))%Z
  | None => 0%Z
  end.

Section Generator.
Context {G : Type} `{BitGenerator G}.

(** Lines 272-387: one step of the process from the working variables,
    drawing from [g] in program order. *)
Definition evolve (tick : Z) (base_ts : Q) (g : G) (w : Working) : TelemetryRow :=
  let shift_hours := w_shift_hours w + 1.0 / 60.0 in
  (* speed and gear pattern *)
  let mode := ((tick / 40) mod 4)%Z in
  let target_speed :=
    if (mode =? 0)%Z then 2.0
    else if (mode =? 1)%Z then 5.0
    else if (mode =? 2)%Z then 8.0
    else 3.0 in
  let '(n_speed, g) := rng_normal g ((target_speed - w_speed_kph w) * 0.25) 0.5 in
  let speed_kph := clamp (w_speed_kph w + n_speed) 0.0 12.0 in
  let gear := py_int (clamp (inject_Z (py_round (1 + speed_kph / 3.0))) 1 4) in
  let '(n_rpm, g) := rng_normal g 0 80 in
  let engine_rpm := py_int (clamp (800 + speed_kph * 120 + n_rpm) 800 2100) in
  (* terrain grade *)
  let '(grade_pct, g) :=
    if (tick mod 50 =? 0)%Z
    then let '(n_step, g) := rng_normal g 0 4.0 in (w_grade_pct w + n_step, g)
    else (w_grade_pct w, g) in
  let '(n_grade, g) := rng_normal g 0 0.5 in
  let grade_pct := clamp (grade_pct + n_grade) (-22.0) 22.0 in
  (* roll / pitch wobble *)
  let '(n_roll, g) := rng_normal g (grade_pct * 0.03) 1.0 in
  let '(n_pitch, g) := rng_normal g (grade_pct * 0.04) 0.8 in
  let roll_deg := clamp (w_roll_deg w + n_roll) (-18.0) 18.0 in
  let pitch_deg := clamp (w_pitch_deg w + n_pitch) (-15.0) 15.0 in
  (* blade load *)
  let '(u_load, g) := rng_random g in
  let target_load :=
    if (mode =? 0)%Z || (mode =? 1)%Z then 70 + 20 * u_load else 20 * u_load in
  let '(n_load, g) := rng_normal g ((target_load - w_blade_load_pct w) * 0.3) 4.0 in
  let blade_load_pct := clamp (w_blade_load_pct w + n_load) 0.0 115.0 in
  (* fuel burn *)
  let fuel_pct := clamp (w_fuel_pct w - (0.03 + speed_kph * 0.01)) 5.0 100.0 in
  (* ground and moisture *)
  let '(moisture_index, g) :=
    if (tick mod 120 =? 0)%Z
    then let '(n_rain, g) := rng_normal g 0.15 0.05 in (w_moisture_index w + n_rain, g)
    else (w_moisture_index w, g) in
  let '(n_moist, g) := rng_normal g 0.0 0.01 in
  let moisture_index := clamp (moisture_index + n_moist) 0.1 0.95 in
  let '(n_firm, g) := rng_normal g (-0.015 * moisture_index) 0.01 in
  let ground_firmness := clamp (w_ground_firmness w + n_firm) 0.25 0.95 in
  (* visibility *)
  let '(n_vis, g) := rng_normal g (-0.004) 0.01 in
  let visibility := clamp (w_visibility w + n_vis) 0.3 1.0 in
  (* GNSS quality *)
  let '(n_hdop, g) := rng_normal g (0.02 * (1.0 - visibility)) 0.04 in
  let gnss_hdop := clamp (w_gnss_hdop w + n_hdop) 0.5 3.5 in
  let '(n_jit, g) := rng_normal g (0.05 * (1.0 - visibility)) 0.06 in
  let gnss_jitter_m := clamp (w_gnss_jitter_m w + n_jit) 0.15 3.0 in
  (* obstacles *)
  let '(u_obst, g) := rng_random g in
  let '(obstacle_distance_m, obstacle_bearing_deg, g) :=
    if Qltb u_obst 0.06
    then
      let '(d, g) := rng_uniform g 6.0 35.0 in
      let '(b, g) := rng_uniform g (-120) 120 in
      (d, b, g)
    else
      let d := w_obstacle_distance_m w + 3.0 in
      let d := if Qltb 80 d then 999.0 else d in
      (d, w_obstacle_bearing_deg w, g) in
  (* operator behaviour *)
  let '(n_micro, g) :=
    rng_normal g (0.1 * (Qabs grade_pct + Qabs roll_deg) / 20.0) 1.0 in
  let micro_corr := clamp (w_micro_corr w + n_micro) 8.0 60.0 in
  (* risks *)
  let rollover_risk := compute_rollover_risk grade_pct roll_deg speed_kph in
  let slip_risk := compute_slip_risk grade_pct moisture_index ground_firmness speed_kph in
  let obstacle_risk := compute_obstacle_risk obstacle_distance_m speed_kph in
  let gnss_conf := compute_gnss_confidence gnss_hdop gnss_jitter_m visibility in
  let overall_risk := compute_overall_risk rollover_risk slip_risk obstacle_risk gnss_conf in
  let state := classify_state overall_risk in
  mkTelemetryRow tick base_ts speed_kph gear engine_rpm grade_pct roll_deg
    pitch_deg blade_load_pct fuel_pct ground_firmness moisture_index
    visibility gnss_hdop gnss_jitter_m obstacle_distance_m
    obstacle_bearing_deg shift_hours micro_corr rollover_risk slip_risk
    obstacle_risk gnss_conf overall_risk state.

(** [ss.tick] and the reading of [time.time()] at line 229 are arguments. *)
Definition generate_tick (ss_tick_now : Z) (base_ts : Q)
    (prev : option TelemetryRow) : TelemetryRow :=
  let tick := (ss_tick_now + 1)%Z in
  let rng := default_rng (seed_of base_ts) in
  evolve tick base_ts rng (initial_working prev).
End Generator.

(** ** String formatting used by the f-strings *)

Local Open Scope string_scope.

Definition string_of_Z (z : Z) : string := NilZero.string_of_int (Z.to_int z).

Fixpoint zeros (n : nat) : string :=
  match n with
  | O => EmptyString
  | S n' => String "0"%char (zeros n')
  end.

(** [f"{x:.df}"]: sign, integer part and [d] decimals of [x] rounded to
    [d] places, ties to even. *)
Definition format_f (d : nat) (x : Q) : string :=
  let scale := (10 ^ Z.of_nat d)%Z in
  let r := py_round (Qabs x * inject_Z scale) in
  let digits := string_of_Z (r mod scale) in
  let frac :=
    match d with
    | O => EmptyString
    | _ => ("." ++ zeros (d - String.length digits) ++ digits)%string
    end in
  ((if Qltb x 0 then "-" else "") ++ string_of_Z (r / scale) ++ frac)%string.

(** [sep.join(bits)]. *)
Fixpoint join (sep : string) (bits : list string) : string :=
  match bits with
  | [] => EmptyString
  | [b] => b
  | b :: rest => (b ++ sep ++ join sep rest)%string
  end.

Definition mem (s : string) (l : list string) : bool := existsb (String.eqb s) l.

(** ** Proposal engine (app.py, lines 392-471) *)

Definition is_pending (p : Proposal) : bool := String.eqb (status p) "PENDING".

Definition triggers_of (latest : TelemetryRow) : list string :=
  let t1 := if Qltb 65 (overall_risk latest) then ["high_overall_risk"] else [] in
  let t2 := if Qltb 70 (rollover_risk latest) then ["rollover_exposure"] else [] in
  let t3 := if Qltb 70 (slip_risk latest) then ["traction_margin_low"] else [] in
  let t4 := if Qltb 60 (obstacle_risk latest) then ["obstacle_close"] else [] in
  let t5 := if Qltb (gnss_confidence latest) 55 then ["low_gnss_conf"] else [] in
  (t1 ++ t2 ++ t3 ++ t4 ++ t5)%list.

Definition title_of (triggers : list string) : string :=
  if mem "obstacle_close" triggers
  then "Pause travel — obstacle within unsafe margin"
  else if mem "rollover_exposure" triggers
  then "Reduce cross-slope exposure and slow to crawl"
  else if mem "traction_margin_low" triggers
  then "Back out, re-cut access path, and reassess ground"
  else if mem "low_gnss_conf" triggers
  then "Switch to local references — GNSS degraded"
  else "Hold profile and reduce speed until risk stabilizes".

Definition bits_of (triggers : list string) (latest : TelemetryRow) : list string :=
  let b1 :=
    if mem "high_overall_risk" triggers
    then ["overall risk " ++ format_f 1 (overall_risk latest) ++ "% > safe band"]
    else [] in
  let b2 :=
    if mem "rollover_exposure" triggers
    then ["roll angle " ++ format_f 1 (roll_deg latest) ++ "° on grade "
          ++ format_f 1 (grade_pct latest) ++ "%"]
    else [] in
  let b3 :=
    if mem "traction_margin_low" triggers
    then ["slip risk elevated (moisture " ++ format_f 2 (moisture_index latest)
          ++ ", firmness " ++ format_f 2 (ground_firmness latest) ++ ")"]
    else [] in
  let b4 :=
    if mem "obstacle_close" triggers
       && negb (Qeq_bool (obstacle_distance_m latest) 999)
    then ["obstacle at " ++ format_f 1 (obstacle_distance_m latest)
          ++ " m, bearing " ++ format_f 0 (obstacle_bearing_deg latest) ++ "°"]
    else [] in
  let b5 :=
    if mem "low_gnss_conf" triggers
    then ["GNSS confidence " ++ format_f 0 (gnss_confidence latest) ++ "%"]
    else [] in
  (b1 ++ b2 ++ b3 ++ b4 ++ b5)%list.

Definition snapshot_of (latest : TelemetryRow) : PyDict :=
  [ ("tick", PInt (tick latest));
    ("overall_risk", PFloat (overall_risk latest));
    ("rollover_risk", PFloat (rollover_risk latest));
    ("slip_risk", PFloat (slip_risk latest));
    ("obstacle_risk", PFloat (obstacle_risk latest));
    ("gnss_confidence", PFloat (gnss_confidence latest));
    ("grade_pct", PFloat (grade_pct latest));
    ("roll_deg", PFloat (roll_deg latest));
    ("speed_kph", PFloat (speed_kph latest));
    ("obstacle_distance_m", PFloat (obstacle_distance_m latest)) ].

(** [t_created] is the clock reading of line 447, [t_logged] the one inside
    the [log_audit] of line 466. *)
Definition maybe_generate_proposal (t_created t_logged : Q)
    (latest : TelemetryRow) (ss : SessionState) : SessionState :=
  let open_pending := filter is_pending (ss_proposals ss) in
  if (4 <=? List.length open_pending)%nat then ss
  else
    let triggers := triggers_of latest in
    match triggers with
    | [] => ss
    | _ =>
      let title := title_of triggers in
      let rationale := join " · " (bits_of triggers latest) in
      let proposal :=
        mkProposal (ss_next_proposal_id ss) t_created title rationale
                   "PENDING" (snapshot_of latest) in
      let ss1 :=
        {| ss_tick := ss_tick ss;
           ss_running := ss_running ss;
           ss_last_update := ss_last_update ss;
           ss_history := ss_history ss;
           ss_proposals := ss_proposals ss ++ [proposal];
           ss_audit := ss_audit ss;
           ss_next_proposal_id := (ss_next_proposal_id ss + 1)%Z |} in
      log_audit t_logged "proposal"
        ("Proposal #" ++ string_of_Z (proposal_id proposal) ++ ": " ++ title)
        (Some [("rationale"%string, PStr rationale)]) ss1
    end.

Definition set_status (new_status : string) (p : Proposal) : Proposal :=
  mkProposal (proposal_id p) (created_ts p) (title p) (rationale p)
             new_status (snapshot p).

Fixpoint update_at {A : Type} (i : nat) (f : A -> A) (xs : list A) : list A :=
  match xs, i with
  | [], _ => []
  | x :: rest, O => f x :: rest
  | x :: rest, S i' => x :: update_at i' f rest
  end.

(** Lines 468-471.  A [Proposal] object is created only at lines 445-464,
    appended to [ss.proposals] at once and never moved, so the object passed
    as [prop] is named by its position [i] in the list; the assignment to
    [prop.status] is the update of that position.  [None] stands for a
    position that names no object, which the Python call cannot express. *)
Definition update_proposal_status (t_logged : Q) (i : nat) (new_status : string)
    (ss : SessionState) : option SessionState :=
  match nth_error (ss_proposals ss) i with
  | None => None
  | Some prop =>
    let old := status prop in
    let ss1 :=
      {| ss_tick := ss_tick ss;
         ss_running := ss_running ss;
         ss_last_update := ss_last_update ss;
         ss_history := ss_history ss;
         ss_proposals := update_at i (set_status new_status) (ss_proposals ss);
         ss_audit := ss_audit ss;
         ss_next_proposal_id := ss_next_proposal_id ss |} in
    Some (log_audit t_logged "decision"
            (new_status ++ " → Proposal #" ++ string_of_Z (proposal_id prop))
            (Some [("title"%string, PStr (title prop)); ("prev"%string, PStr old)])
            ss1)
  end.

(** ** The decision buttons (app.py, lines 727 and 736-748) *)

(** Line 727, [next(p for p in ss.proposals if p.id == pid)]: the position
    of the first proposal with that id, [None] when the iterator is
    exhausted. *)
Fixpoint find_proposal (pid : Z) (ps : list Proposal) : option nat :=
  match ps with
  | [] => None
  | p :: rest =>
    if (proposal_id p =? pid)%Z then Some O
    else option_map S (find_proposal pid rest)
  end.

(** One of the three buttons: it is drawn with
    [disabled = prop.status != "PENDING"], and a disabled button reports no
    click, so [update_proposal_status] runs only for a click on an enabled
    button. *)
Definition decision_button (clicked : bool) (t_logged : Q) (i : nat)
    (new_status : string) (ss : SessionState) : option SessionState :=
  match nth_error (ss_proposals ss) i with
  | None => None
  | Some prop =>
    let disabled := negb (String.eqb (status prop) "PENDING") in
    if clicked && negb disabled
    then update_proposal_status t_logged i new_status ss
    else Some ss
  end.

(** The decision on the proposal with id [pid], as lines 727 and 736-748
    carry it out: the lookup of the id, the button that is enabled only for
    a PENDING proposal, and [update_proposal_status].  The flag tells whether
    the decision took place; when it did not (no proposal has the id, so
    that [next] raises, or the button is disabled) the session is returned
    as it was. *)
Definition decide (pid : Z) (new_status : string) (t_logged : Q)
    (ss : SessionState) : bool * SessionState :=
  match find_proposal pid (ss_proposals ss) with
  | None => (false, ss)
  | Some i =>
    match nth_error (ss_proposals ss) i with
    | None => (false, ss)
    | Some prop =>
      if String.eqb (status prop) "PENDING"
      then match update_proposal_status t_logged i new_status ss with
           | Some ss' => (true, ss')
           | None => (false, ss)
           end
      else (false, ss)
    end
  end.

(** ** Controls and the simulation step (app.py, lines 510-550) *)

Definition start_simulation (t_now t_logged : Q) (ss : SessionState) : SessionState :=
  log_audit t_logged "control" "Simulation started" (Some [])
    {| ss_tick := ss_tick ss;
       ss_running := true;
       ss_last_update := t_now;
       ss_history := ss_history ss;
       ss_proposals := ss_proposals ss;
       ss_audit := ss_audit ss;
       ss_next_proposal_id := ss_next_proposal_id ss |}.

Definition pause_simulation (t_logged : Q) (ss : SessionState) : SessionState :=
  log_audit t_logged "control" "Simulation paused" (Some [])
    {| ss_tick := ss_tick ss;
       ss_running := false;
       ss_last_update := ss_last_update ss;
       ss_history := ss_history ss;
       ss_proposals := ss_proposals ss;
       ss_audit := ss_audit ss;
       ss_next_proposal_id := ss_next_proposal_id ss |}.

Definition reset_simulation (t_now t_logged : Q) : SessionState :=
  log_audit t_logged "control" "Simulation reset" (Some []) (init_state t_now).

Definition DT_SECONDS : Q := 1.0.

(** The readings of [time.time()] taken during one pass over lines 534-550,
    in program order. *)
Record Clock : Type := mkClock {
  t_check : Q;     (* line 534 *)
  t_gen : Q;       (* line 229, inside generate_tick *)
  t_update : Q;    (* line 540 *)
  t_alert : Q;     (* log_audit of line 543 *)
  t_created : Q;   (* line 447 *)
  t_proposal : Q   (* log_audit of line 466 *)
}.

(** [ss.history[-1] if ss.history else None]. *)
Definition last_row (h : list TelemetryRow) : option TelemetryRow :=
  match h with
  | [] => None
  | r :: rest => Some (last rest r)
  end.

Section Simulation.
Context {G : Type} `{BitGenerator G}.

Definition simulation_step (c : Clock) (ss : SessionState) : SessionState :=
  if ss_running ss && Qle_bool DT_SECONDS (t_check c - ss_last_update ss)
  then
    let prev_row := last_row (ss_history ss) in
    let latest_row := generate_tick (ss_tick ss) (t_gen c) prev_row in
    let ss1 :=
      {| ss_tick := tick latest_row;
         ss_running := ss_running ss;
         ss_last_update := t_update c;
         ss_history := py_last 600 (ss_history ss ++ [latest_row]);
         ss_proposals := ss_proposals ss;
         ss_audit := ss_audit ss;
         ss_next_proposal_id := ss_next_proposal_id ss |} in
    let ss2 :=
      if String.eqb (state latest_row) "HIGH"
         || String.eqb (state latest_row) "CRITICAL"
      then log_audit (t_alert c) "alert"
             (state latest_row ++ " risk at tick " ++ string_of_Z (tick latest_row))
             (Some [("overall_risk", PFloat (overall_risk latest_row))]) ss1
      else ss1 in
    maybe_generate_proposal (t_created c) (t_proposal c) latest_row ss2
  else ss.

(** Drive the loop once per clock record. *)
Fixpoint drive (cs : list Clock) (ss : SessionState) : SessionState :=
  match cs with
  | [] => ss
  | c :: rest => drive rest (simulation_step c ss)
  end.
End Simulation.


(** ** Vocabulary of the properties *)

(** Appending a given entry: the call of [log_audit] that records it. *)
Definition log_entry (e : AuditEntry) (ss : SessionState) : SessionState :=
  log_audit (entry_ts e) (kind e) (summary e) (Some (meta e)) ss.

Definition log_all (es : list AuditEntry) (ss : SessionState) : SessionState :=
  fold_left (fun s e => log_entry e s) es ss.

(** A numbered run of control entries, to exercise the log. *)
Definition numbered_entry (i : nat) : AuditEntry :=
  mkAuditEntry (inject_Z (Z.of_nat i)) "control" "Simulation started" [].

Definition numbered_entries (n : nat) : list AuditEntry :=
  map numbered_entry (seq 0 n).

(** The rows the generator can produce: from a cold start, or from a row it
    produced before (the loop passes [ss.history[-1]]). *)
Inductive produced {G : Type} `{BitGenerator G} : TelemetryRow -> Prop :=
| produced_cold (ss_tick_now : Z) (base_ts : Q) :
    produced (generate_tick ss_tick_now base_ts None)
| produced_next (ss_tick_now : Z) (base_ts : Q) (prev : TelemetryRow) :
    produced prev ->
    produced (generate_tick ss_tick_now base_ts (Some prev)).

(** An obstacle distance that is a real distance or the sentinel. *)
Definition distance_or_sentinel (d : Q) : Prop :=
  (6 <= d /\ d <= 80) \/ d == 999.

(** The defaults of a cold start, as values of a returned row. *)
Definition carries_defaults (r : TelemetryRow) : Prop :=
  speed_kph r == 0
  /\ gear r = 1%Z
  /\ engine_rpm r = 800%Z
  /\ grade_pct r == 0
  /\ ground_firmness r == 0.7
  /\ moisture_index r == 0.3
  /\ visibility r == 0.9
  /\ fuel_pct r == 90
  /\ obstacle_distance_m r == 999
  /\ shift_hours r == 2
  /\ micro_corrections_per_min r == 22.

(** A row with its timestamp replaced, and rows equal but for it. *)
Definition with_ts (t : Q) (r : TelemetryRow) : TelemetryRow :=
  mkTelemetryRow (tick r) t (speed_kph r) (gear r) (engine_rpm r) (grade_pct r)
    (roll_deg r) (pitch_deg r) (blade_load_pct r) (fuel_pct r)
    (ground_firmness r) (moisture_index r) (visibility r) (gnss_hdop r)
    (gnss_jitter_m r) (obstacle_distance_m r) (obstacle_bearing_deg r)
    (shift_hours r) (micro_corrections_per_min r) (rollover_risk r)
    (slip_risk r) (obstacle_risk r) (gnss_confidence r) (overall_risk r)
    (state r).

Definition same_but_ts (r1 r2 : TelemetryRow) : Prop :=
  with_ts 0 r1 = with_ts 0 r2.

Definition same_prev (p1 p2 : option TelemetryRow) : Prop :=
  option_map (with_ts 0) p1 = option_map (with_ts 0) p2.

(** A session state with the timestamps of its history rows blanked, and
    states equal but for them. *)
Definition blank_history_ts (ss : SessionState) : SessionState :=
  {| ss_tick := ss_tick ss;
     ss_running := ss_running ss;
     ss_last_update := ss_last_update ss;
     ss_history := map (with_ts 0) (ss_history ss);
     ss_proposals := ss_proposals ss;
     ss_audit := ss_audit ss;
     ss_next_proposal_id := ss_next_proposal_id ss |}.

Definition same_but_row_ts (s1 s2 : SessionState) : Prop :=
  blank_history_ts s1 = blank_history_ts s2.

(** Two passes of the loop whose clocks agree, except that the readings
    taken inside [generate_tick] need only give the same seed. *)
Definition same_seed_clock (c1 c2 : Clock) : Prop :=
  t_check c1 = t_check c2
  /\ seed_of (t_gen c1) = seed_of (t_gen c2)
  /\ t_update c1 = t_update c2
  /\ t_alert c1 = t_alert c2
  /\ t_created c1 = t_created c2
  /\ t_proposal c1 = t_proposal c2.

(** Five passes one second apart, the generator reading the clock [shift]
    after each second; the state just after Start on a fresh session. *)
Definition five_ticks (shift : Q) : list Clock :=
  map (fun n : Z =>
         let t := inject_Z n in
         mkClock t (t + shift) t t t t)
      [1; 2; 3; 4; 5]%Z.

Definition started : SessionState := start_simulation 0 0 (init_state 0).

(** The number of proposals awaiting a decision. *)
Definition pending_count (ss : SessionState) : nat :=
  List.length (filter is_pending (ss_proposals ss)).

(** A row whose only firing trigger is the overall risk, a proposal raised
    from it, and sessions holding such proposals. *)
Definition risky_row : TelemetryRow :=
  mkTelemetryRow 7 100 3 2 1160 5 2 1 50 80 0.7 0.3 0.9 0.8 0.3 999 0 2.1 22
    40 30 0 90 70 "HIGH".

Definition sample_proposal (n : Z) (st : string) : Proposal :=
  mkProposal n 50 "Hold profile and reduce speed until risk stabilizes"
    "overall risk 70.0% > safe band" st (snapshot_of risky_row).

Definition session_with (ps : list Proposal) : SessionState :=
  {| ss_tick := 7;
     ss_running := true;
     ss_last_update := 100;
     ss_history := [risky_row];
     ss_proposals := ps;
     ss_audit := [];
     ss_next_proposal_id := Z.of_nat (List.length ps) + 1 |}.

Definition four_pending : SessionState :=
  session_with [sample_proposal 1 "PENDING"; sample_proposal 2 "PENDING";
                sample_proposal 3 "PENDING"; sample_proposal 4 "PENDING"].

Definition one_approved : SessionState :=
  session_with [sample_proposal 1 "APPROVED"].

(** The audit entry that [update_proposal_status] writes for [prop]. *)
Definition decision_entry (t_logged : Q) (new_status : string) (prop : Proposal)
  : AuditEntry :=
  mkAuditEntry t_logged "decision"
    (new_status ++ " → Proposal #" ++ string_of_Z (proposal_id prop))
    [("title", PStr (title prop)); ("prev", PStr (status prop))].

(** ** Vocabulary of the further properties *)

(** Two previous rows that agree on every field the step goes on to use:
    all but tick, timestamp, gear, engine rpm and the derived risks. *)
Definition same_inputs (p1 p2 : TelemetryRow) : Prop :=
  speed_kph p1 = speed_kph p2
  /\ grade_pct p1 = grade_pct p2
  /\ roll_deg p1 = roll_deg p2
  /\ pitch_deg p1 = pitch_deg p2
  /\ blade_load_pct p1 = blade_load_pct p2
  /\ fuel_pct p1 = fuel_pct p2
  /\ ground_firmness p1 = ground_firmness p2
  /\ moisture_index p1 = moisture_index p2
  /\ visibility p1 = visibility p2
  /\ gnss_hdop p1 = gnss_hdop p2
  /\ gnss_jitter_m p1 = gnss_jitter_m p2
  /\ obstacle_distance_m p1 = obstacle_distance_m p2
  /\ obstacle_bearing_deg p1 = obstacle_bearing_deg p2
  /\ shift_hours p1 = shift_hours p2
  /\ micro_corrections_per_min p1 = micro_corrections_per_min p2.

(** [risky_row] with another gear, rpm, tick, timestamp and label. *)
Definition risky_row_relabelled : TelemetryRow :=
  mkTelemetryRow 99 5 3 4 2000 5 2 1 50 80 0.7 0.3 0.9 0.8 0.3 999 0 2.1 22
    1 2 3 4 5 "STABLE".

(** ** The session as the script drives it (app.py, lines 510-550, 721-748)

    Each run of the script performs at most one pressed control, the
    simulation step when it is due, and at most one pressed decision button
    on the proposal picked in the select box.  A session is a sequence of
    such actions from the initial state.  The actions are what their lines
    compute when reached: any order of them is allowed here, which is more
    than the script does, since [render_status] reads attributes of the
    dict rows of the history (line 481, called at 556) and so stops the
    script before the proposal panel once a row exists. *)
Inductive Decision : Type :=
| Approve
| Reject
| Defer.

(** The status each button passes to [update_proposal_status]
    (lines 739, 743, 747). *)
Definition decision_status (d : Decision) : string :=
  match d with
  | Approve => "APPROVED"
  | Reject => "REJECTED"
  | Defer => "DEFERRED"
  end.

Inductive Action : Type :=
| PressStart (t_now t_logged : Q)                  (* lines 512-516 *)
| PressPause (t_logged : Q)                        (* lines 518-522 *)
| PressReset (t_now t_logged : Q)                  (* lines 524-527 *)
| AutoTick (c : Clock)                             (* lines 534-550 *)
| PressDecision (pid : Z) (d : Decision) (t_logged : Q).  (* lines 726-748 *)

Section Session.
Context {G : Type} `{BitGenerator G}.

(** A decision acts on the proposal that line 727 finds for the picked id;
    when the lookup finds none the script stops there ([next] raises) with
    the session as it was. *)
Definition run_action (a : Action) (ss : SessionState) : SessionState :=
  match a with
  | PressStart t_now t_logged => start_simulation t_now t_logged ss
  | PressPause t_logged => pause_simulation t_logged ss
  | PressReset t_now t_logged => reset_simulation t_now t_logged
  | AutoTick c => simulation_step c ss
  | PressDecision pid d t_logged =>
    match find_proposal pid (ss_proposals ss) with
    | None => ss
    | Some i =>
      match decision_button true t_logged i (decision_status d) ss with
      | Some ss' => ss'
      | None => ss
      end
    end
  end.

Inductive reachable : SessionState -> Prop :=
| reachable_init (now : Q) : reachable (init_state now)
| reachable_action (a : Action) (ss : SessionState) :
    reachable ss -> reachable (run_action a ss).
End Session.

(** The ids 1, 2, ..., n. *)
Definition ids_upto (n : nat) : list Z := map Z.of_nat (seq 1 n).

(** The rows of the history carry consecutive ticks that end at the
    session tick: the row at position [k] has tick
    [ss.tick - len(history) + 1 + k]. *)
Definition ticks_consecutive (ss : SessionState) : Prop :=
  forall (k : nat) (r : TelemetryRow),
    nth_error (ss_history ss) k = Some r ->
    tick r = (ss_tick ss - Z.of_nat (List.length (ss_history ss)) + 1 + Z.of_nat k)%Z.

(** The four states of a proposal. *)
Definition known_status (s : string) : Prop :=
  s = "PENDING" \/ s = "APPROVED" \/ s = "REJECTED" \/ s = "DEFERRED".

(** The test of line 534 and the row that line 536 generates. *)
Definition step_due (c : Clock) (ss : SessionState) : bool :=
  ss_running ss && Qle_bool DT_SECONDS (t_check c - ss_last_update ss).

Definition new_row {G : Type} `{BitGenerator G} (c : Clock) (ss : SessionState)
  : TelemetryRow :=
  generate_tick (ss_tick ss) (t_gen c) (last_row (ss_history ss)).

(** ** The select box of proposals (app.py, lines 724-727) *)

(** Line 724, [f"#{p.id} [{p.status}] {p.title}"]. *)
Definition label_of (p : Proposal) : string :=
  "#" ++ string_of_Z (proposal_id p) ++ " [" ++ status p ++ "] " ++ title p.

(** [s.split(" ")[0]]: the text before the first space, all of [s] when it
    has none. *)
Fixpoint first_word (s : string) : string :=
  match s with
  | EmptyString => EmptyString
  | String c rest =>
    if Ascii.eqb c " " then EmptyString else String c (first_word rest)
  end.

(** [s.replace("#", "")]. *)
Fixpoint drop_hashes (s : string) : string :=
  match s with
  | EmptyString => EmptyString
  | String c rest =>
    if Ascii.eqb c "#" then drop_hashes rest else String c (drop_hashes rest)
  end.

(** [int(s)] on an optional minus sign followed by decimal digits.  [None]
    stands for the [ValueError] of the empty string, of a lone sign and of
    any other character; the further spellings that Python's [int] accepts
    (surrounding blanks, a plus sign, underscores) are refused here, none of
    them is written by [str] of an integer. *)
Definition py_int_of_string (s : string) : option Z :=
  option_map Z.of_int (NilZero.int_of_string s).

(** Line 726. *)
Definition pid_of_label (selected_label : string) : option Z :=
  py_int_of_string (drop_hashes (first_word selected_label)).

(** Strings without a space or a hash sign. *)
Fixpoint plain (s : string) : bool :=
  match s with
  | EmptyString => true
  | String c rest => negb (Ascii.eqb c " ") && negb (Ascii.eqb c "#") && plain rest
  end.
(** * Properties *)

Local Open Scope list_scope.

(** ** Comparisons and clamping *)

Lemma Qltb_lt (a b : Q) : Qltb a b = true <-> a < b.
Proof.
  unfold Qltb. rewrite negb_true_iff. split; intro Hlt.
  - apply Qnot_le_lt. intro Hle. apply Qle_bool_iff in Hle. congruence.
  - destruct (Qle_bool b a) eqn:E; [|reflexivity].
    apply Qle_bool_iff in E. exfalso. apply (Qlt_not_le _ _ Hlt E).
Qed.

Lemma Qltb_ge (a b : Q) : Qltb a b = false <-> b <= a.
Proof.
  unfold Qltb. rewrite negb_false_iff. apply Qle_bool_iff.
Qed.

Lemma Qltb_spec (a b : Q) : reflect (a < b) (Qltb a b).
Proof.
  destruct (Qltb a b) eqn:E; constructor.
  - now apply Qltb_lt.
  - apply Qltb_ge in E. now apply Qle_not_lt.
Qed.

Lemma py_min_le_l (a b : Q) : py_min a b <= a.
Proof.
  unfold py_min. destruct (Qltb_spec b a); lra.
Qed.

Lemma py_min_glb (a b c : Q) : c <= a -> c <= b -> c <= py_min a b.
Proof.
  unfold py_min. destruct (Qltb_spec b a); lra.
Qed.

Lemma py_max_ge_l (a b : Q) : a <= py_max a b.
Proof.
  unfold py_max. destruct (Qltb_spec a b); lra.
Qed.

Lemma py_max_lub (a b c : Q) : a <= c -> b <= c -> py_max a b <= c.
Proof.
  unfold py_max. destruct (Qltb_spec a b); lra.
Qed.

Lemma clamp_lower (v lo hi : Q) : lo <= clamp v lo hi.
Proof. apply py_max_ge_l. Qed.

Lemma clamp_upper (v lo hi : Q) : lo <= hi -> clamp v lo hi <= hi.
Proof.
  intro Hle. unfold clamp. apply py_max_lub; [exact Hle | apply py_min_le_l].
Qed.

Lemma clamp_bounds (v lo hi : Q) : lo <= hi -> lo <= clamp v lo hi <= hi.
Proof.
  intro Hle. split; [apply clamp_lower | now apply clamp_upper].
Qed.

Lemma clamp_within (v lo hi lo' hi' : Q) :
  lo <= hi -> lo' <= lo -> hi <= hi' -> lo' <= clamp v lo hi <= hi'.
Proof.
  intros Hle Hlo Hhi. destruct (clamp_bounds v lo hi Hle). split; lra.
Qed.

Lemma clamp_inside (v lo hi : Q) : lo <= v -> v <= hi -> clamp v lo hi == v.
Proof.
  intros Hlo Hhi. unfold clamp, py_max, py_min.
  destruct (Qltb_spec v hi);
    [destruct (Qltb_spec lo v) | destruct (Qltb_spec lo hi)]; lra.
Qed.

Lemma py_int_bounds (x : Q) (lo hi : Z) :
  inject_Z lo <= x -> x <= inject_Z hi -> (lo <= py_int x <= hi)%Z.
Proof.
  intros Hlo Hhi. unfold py_int. destruct (Qle_bool 0 x).
  - split.
    + rewrite <- (Qfloor_Z lo). now apply Qfloor_resp_le.
    + rewrite <- (Qfloor_Z hi). now apply Qfloor_resp_le.
  - split.
    + rewrite <- (Qceiling_Z lo). now apply Qceiling_resp_le.
    + rewrite <- (Qceiling_Z hi). now apply Qceiling_resp_le.
Qed.

(** ** Risk engine *)

(** C8.  [classify_state] cuts the overall risk at 25, 50 and 75, each
    threshold belonging to the bucket above it: below 25 is STABLE, from 25
    and below 50 ELEVATED, from 50 and below 75 HIGH, from 75 on CRITICAL;
    24.999, 25, 49.999, 50, 74.999 and 75 fall as the specification lists. *)
Theorem classify_state_thresholds :
  (forall r : Q,
      (r < 25 -> classify_state r = "STABLE")
      /\ (25 <= r -> r < 50 -> classify_state r = "ELEVATED")
      /\ (50 <= r -> r < 75 -> classify_state r = "HIGH")
      /\ (75 <= r -> classify_state r = "CRITICAL"))
  /\ classify_state 24.999 = "STABLE"
  /\ classify_state 25 = "ELEVATED"
  /\ classify_state 49.999 = "ELEVATED"
  /\ classify_state 50 = "HIGH"
  /\ classify_state 74.999 = "HIGH"
  /\ classify_state 75 = "CRITICAL".
Proof.
  split; [|repeat split; reflexivity].
  intro r. unfold classify_state.
  destruct (Qltb_spec r 25); destruct (Qltb_spec r 50); destruct (Qltb_spec r 75);
    repeat split; intros; try reflexivity; exfalso; lra.
Qed.

Lemma classify_state_thresholds_witness :
  classify_state 10 = "STABLE" /\ classify_state 30 = "ELEVATED"
  /\ classify_state 60 = "HIGH" /\ classify_state 90 = "CRITICAL".
Proof.
  destruct classify_state_thresholds as [Hall _].
  split; [|split; [|split]].
  - apply (proj1 (Hall 10)). reflexivity.
  - apply (proj1 (proj2 (Hall 30))); [discriminate | reflexivity].
  - apply (proj1 (proj2 (proj2 (Hall 60)))); [discriminate | reflexivity].
  - apply (proj2 (proj2 (proj2 (Hall 90)))). discriminate.
Defined.

(** C7.  [compute_obstacle_risk], computed as the program computes it in
    binary64, is 0 from 80 m on and at the sentinel 999; nearer than that it
    grades the time to contact [distance / max(speed / 3.6, 0.1)]: 10 above
    40 s, 35 above 20 s, 60 above 10 s, 85 otherwise.  At 999 and at 80 it
    is 0 for every speed, and at 5 m and 36 km/h it is 85. *)
Theorem compute_obstacle_risk_b64_spec :
  (forall distance_m speed_kph : b64,
      (SFleb (b64_of_Z 80) distance_m = true
       \/ SFeqb distance_m (b64_of_Z 999) = true ->
       compute_obstacle_risk_b64 distance_m speed_kph = b64_of_Z 0)
      /\ (SFleb (b64_of_Z 80) distance_m = false ->
          SFeqb distance_m (b64_of_Z 999) = false ->
          let speed_mps := b64_max (b64_div speed_kph (b64_of_Q 3.6)) (b64_of_Q 0.1) in
          let ttc := b64_div distance_m speed_mps in
          (SFltb (b64_of_Z 40) ttc = true ->
           compute_obstacle_risk_b64 distance_m speed_kph = b64_of_Z 10)
          /\ (SFltb (b64_of_Z 40) ttc = false ->
              SFltb (b64_of_Z 20) ttc = true ->
              compute_obstacle_risk_b64 distance_m speed_kph = b64_of_Z 35)
          /\ (SFltb (b64_of_Z 40) ttc = false ->
              SFltb (b64_of_Z 20) ttc = false ->
              SFltb (b64_of_Z 10) ttc = true ->
              compute_obstacle_risk_b64 distance_m speed_kph = b64_of_Z 60)
          /\ (SFltb (b64_of_Z 40) ttc = false ->
              SFltb (b64_of_Z 20) ttc = false ->
              SFltb (b64_of_Z 10) ttc = false ->
              compute_obstacle_risk_b64 distance_m speed_kph = b64_of_Z 85)))
  /\ (forall s : b64, compute_obstacle_risk_b64 (b64_of_Z 999) s = b64_of_Z 0)
  /\ (forall s : b64, compute_obstacle_risk_b64 (b64_of_Z 80) s = b64_of_Z 0)
  /\ compute_obstacle_risk_b64 (b64_of_Z 5) (b64_of_Z 36) = b64_of_Z 85.
Proof.
  split; [|split; [|split]].
  - intros distance_m speed_kph. split.
    + intros Hfar. unfold compute_obstacle_risk_b64.
      destruct Hfar as [-> | ->]; [reflexivity|].
      now rewrite orb_true_r.
    + intros Hnear Hsent. cbv zeta. unfold compute_obstacle_risk_b64, b64_max.
      rewrite Hnear, Hsent. cbn [orb].
      set (ttc := b64_div distance_m _).
      split; [|split; [|split]].
      * intros ->. reflexivity.
      * intros -> ->. reflexivity.
      * intros -> -> ->. reflexivity.
      * intros -> -> ->. reflexivity.
  - intro s. unfold compute_obstacle_risk_b64. reflexivity.
  - intro s. unfold compute_obstacle_risk_b64. reflexivity.
  - vm_compute. reflexivity.
Qed.

Lemma compute_obstacle_risk_b64_spec_witness :
  compute_obstacle_risk_b64 (b64_of_Z 100) (b64_of_Z 5) = b64_of_Z 0
  /\ compute_obstacle_risk_b64 (b64_of_Z 30) (b64_of_Q 3.6) = b64_of_Z 35.
Proof.
  destruct compute_obstacle_risk_b64_spec as [Hall _].
  split.
  - apply (proj1 (Hall (b64_of_Z 100) (b64_of_Z 5))). left. reflexivity.
  - pose proof (proj2 (Hall (b64_of_Z 30) (b64_of_Q 3.6))) as Hnear.
    cbv zeta in Hnear.
    destruct Hnear as (_ & H35 & _); [reflexivity | reflexivity |].
    apply H35; reflexivity.
Defined.

(** Times to contact that land on a threshold: at 6.3 km/h the quotient
    [6.3 / 3.6] rounds to 1.75, so 17.5 m, 35 m and 70 m give exactly 10 s,
    20 s and 40 s and take the bucket below. *)
Example obstacle_risk_on_the_thresholds :
  compute_obstacle_risk_b64 (b64_of_Q 17.5) (b64_of_Q 6.3) = b64_of_Z 85
  /\ compute_obstacle_risk_b64 (b64_of_Q 35) (b64_of_Q 6.3) = b64_of_Z 60
  /\ compute_obstacle_risk_b64 (b64_of_Q 70) (b64_of_Q 6.3) = b64_of_Z 35.
Proof. vm_compute. repeat split. Qed.

Lemma risk_functions_in_range :
  (forall a b c, 0 <= compute_rollover_risk a b c <= 100)
  /\ (forall a b c d, 0 <= compute_slip_risk a b c d <= 100)
  /\ (forall a b, 0 <= compute_obstacle_risk a b <= 100)
  /\ (forall a b c, 0 <= compute_gnss_confidence a b c <= 100)
  /\ (forall a b c d, 0 <= compute_overall_risk a b c d <= 100).
Proof.
  split; [|split; [|split; [|split]]]; intros.
  - apply clamp_bounds. lra.
  - apply clamp_bounds. lra.
  - unfold compute_obstacle_risk.
    destruct (Qle_bool 80 a || Qeq_bool a 999); [lra | apply clamp_bounds; lra].
  - apply clamp_bounds. lra.
  - apply clamp_bounds. lra.
Qed.

(** ** Telemetry generator *)

(** Name the result of every draw of [evolve], outermost first. *)
Ltac name_draws :=
  repeat match goal with
         | |- context [let (_, _) := ?e in _] => destruct e
         end.

(** C4.  Whatever the previous row, the clock and the draws, the row that
    [generate_tick] returns has its five risk fields in [0,100], every
    clamped field inside its clamp range, and the label the classifier
    gives to its overall risk. *)
Theorem generate_tick_ranges :
  forall (G : Type) (B : BitGenerator G) (ss_tick_now : Z) (base_ts : Q)
         (prev : option TelemetryRow),
    let r := generate_tick ss_tick_now base_ts prev in
    (0 <= rollover_risk r <= 100)
    /\ (0 <= slip_risk r <= 100)
    /\ (0 <= obstacle_risk r <= 100)
    /\ (0 <= gnss_confidence r <= 100)
    /\ (0 <= overall_risk r <= 100)
    /\ (0 <= speed_kph r <= 12)
    /\ (1 <= gear r <= 4)%Z
    /\ (800 <= engine_rpm r <= 2100)%Z
    /\ (-22 <= grade_pct r <= 22)
    /\ (-18 <= roll_deg r <= 18)
    /\ (-15 <= pitch_deg r <= 15)
    /\ (0 <= blade_load_pct r <= 115)
    /\ (5 <= fuel_pct r <= 100)
    /\ (0.1 <= moisture_index r <= 0.95)
    /\ (0.25 <= ground_firmness r <= 0.95)
    /\ (0.3 <= visibility r <= 1)
    /\ (0.5 <= gnss_hdop r <= 3.5)
    /\ (0.15 <= gnss_jitter_m r <= 3)
    /\ (8 <= micro_corrections_per_min r <= 60)
    /\ state r = classify_state (overall_risk r).
Proof.
  intros G B ss_tick_now base_ts prev r. subst r. unfold generate_tick.
  generalize (default_rng (seed_of base_ts)) (initial_working prev).
  intros g w. unfold evolve.
  destruct risk_functions_in_range as (Hroll & Hslip & Hobst & Hgnss & Hall).
  name_draws.
  cbn [rollover_risk slip_risk obstacle_risk gnss_confidence overall_risk
       speed_kph gear engine_rpm grade_pct roll_deg pitch_deg blade_load_pct
       fuel_pct moisture_index ground_firmness visibility gnss_hdop
       gnss_jitter_m micro_corrections_per_min state].
  split; [apply Hroll|]. split; [apply Hslip|]. split; [apply Hobst|].
  split; [apply Hgnss|]. split; [apply Hall|].
  split; [apply clamp_within; lra|].
  split; [apply py_int_bounds; [apply clamp_lower | apply clamp_upper; discriminate]|].
  split; [apply py_int_bounds; [apply clamp_lower | apply clamp_upper; discriminate]|].
  repeat (split; [apply clamp_within; lra|]).
  reflexivity.
Qed.

(** ** Audit log *)

Lemma py_last_length {A : Type} (n : nat) (xs : list A) :
  (List.length (py_last n xs) <= n)%nat.
Proof.
  unfold py_last. rewrite length_skipn. lia.
Qed.

Lemma py_last_short {A : Type} (n : nat) (xs : list A) :
  (List.length xs <= n)%nat -> py_last n xs = xs.
Proof.
  intro Hle. unfold py_last.
  replace (List.length xs - n)%nat with 0%nat by lia. reflexivity.
Qed.

Lemma py_last_suffix {A : Type} (n : nat) (xs : list A) :
  xs = firstn (List.length xs - n) xs ++ py_last n xs.
Proof.
  unfold py_last. symmetry. apply firstn_skipn.
Qed.

Lemma py_last_app {A : Type} (n : nat) (xs ys : list A) :
  py_last n (py_last n xs ++ ys) = py_last n (xs ++ ys).
Proof.
  unfold py_last.
  destruct (Nat.le_gt_cases (List.length xs) n) as [Hle | Hgt].
  - replace (List.length xs - n)%nat with 0%nat by lia. reflexivity.
  - rewrite !length_app, length_skipn.
    replace (List.length xs - (List.length xs - n) + List.length ys - n)%nat
      with (List.length ys) by lia.
    replace (List.length xs + List.length ys - n)%nat
      with (List.length ys + (List.length xs - n))%nat by lia.
    rewrite <- skipn_skipn. f_equal.
    rewrite skipn_app.
    replace (List.length xs - n - List.length xs)%nat with 0%nat by lia.
    reflexivity.
Qed.

Lemma log_entry_audit (e : AuditEntry) (ss : SessionState) :
  ss_audit (log_entry e ss) = py_last 150 (ss_audit ss ++ [e]).
Proof.
  destruct e. reflexivity.
Qed.

Lemma log_all_audit (e : AuditEntry) (es : list AuditEntry) (ss : SessionState) :
  ss_audit (log_all (e :: es) ss) = py_last 150 (ss_audit ss ++ e :: es).
Proof.
  unfold log_all. revert e ss. induction es as [| e' es IH]; intros e ss.
  - apply log_entry_audit.
  - change (fold_left (fun s x => log_entry x s) (e :: e' :: es) ss)
      with (fold_left (fun s x => log_entry x s) (e' :: es) (log_entry e ss)).
    rewrite IH, log_entry_audit, py_last_app, <- app_assoc. reflexivity.
Qed.

Lemma numbered_entries_NoDup (n : nat) : NoDup (numbered_entries n).
Proof.
  unfold numbered_entries. apply Injective_map_NoDup; [|apply seq_NoDup].
  intros i j Heq. unfold numbered_entry in Heq.
  injection Heq as Heq. lia.
Qed.

(** C5.  Every [log_audit] leaves at most 150 entries: the new entry goes
    to the end and what is kept is the tail of the lengthened log, nothing
    being dropped while it fits.  After 151 appends to an empty log the
    first entry is gone and the other 150, the 151st last, remain in the
    order they were appended. *)
Theorem log_audit_keeps_last_150 :
  (forall (now : Q) (knd smry : string) (m : option PyDict) (ss : SessionState),
      let e := mkAuditEntry now knd smry (meta_or_empty m) in
      let ss' := log_audit now knd smry m ss in
      (List.length (ss_audit ss') <= 150)%nat
      /\ (exists evicted, ss_audit ss ++ [e] = evicted ++ ss_audit ss')
      /\ ((List.length (ss_audit ss) < 150)%nat -> ss_audit ss' = ss_audit ss ++ [e])
      /\ ss_proposals ss' = ss_proposals ss
      /\ ss_history ss' = ss_history ss)
  /\ (forall (es : list AuditEntry) (ss : SessionState) (first : AuditEntry),
         ss_audit ss = [] ->
         List.length es = 151%nat ->
         NoDup es ->
         hd_error es = Some first ->
         let ss' := log_all es ss in
         ss_audit ss' = tl es
         /\ List.length (ss_audit ss') = 150%nat
         /\ ~ In first (ss_audit ss')
         /\ In (last es first) (ss_audit ss')).
Proof.
  split.
  - intros now knd smry m ss e ss'. subst ss'. cbn [log_audit ss_audit ss_proposals ss_history].
    fold e. repeat split.
    + apply py_last_length.
    + eexists. apply py_last_suffix.
    + intro Hlt. apply py_last_short. rewrite length_app. cbn. lia.
  - intros es ss first Hempty Hlen Hnodup Hhd ss'. subst ss'.
    destruct es as [| e0 rest]; [discriminate|].
    rewrite log_all_audit, Hempty. cbn [app].
    cbn in Hhd. injection Hhd as ->. cbn [List.length] in Hlen.
    assert (Htail : py_last 150 (first :: rest) = rest).
    { unfold py_last. cbn [List.length].
      replace (S (List.length rest) - 150)%nat with 1%nat by lia. reflexivity. }
    rewrite Htail. cbn [tl]. repeat split.
    + lia.
    + inversion Hnodup; assumption.
    + destruct rest as [| e1 rest']; [cbn in Hlen; lia|].
      change (last (first :: e1 :: rest') first) with (last (e1 :: rest') first).
      clear. revert e1. induction rest' as [| e2 rest'' IH]; intro e1.
      * left. reflexivity.
      * right. change (last (e1 :: e2 :: rest'') first) with (last (e2 :: rest'') first).
        apply IH.
Qed.

Lemma log_audit_keeps_last_150_witness :
  ss_audit (log_all (numbered_entries 151) (init_state 0))
  = tl (numbered_entries 151)
  /\ ~ In (numbered_entry 0) (ss_audit (log_all (numbered_entries 151) (init_state 0))).
Proof.
  destruct log_audit_keeps_last_150 as [_ Hrun].
  destruct (Hrun (numbered_entries 151) (init_state 0) (numbered_entry 0))
    as (Htl & _ & Habsent & _).
  - reflexivity.
  - reflexivity.
  - apply numbered_entries_NoDup.
  - reflexivity.
  - split; assumption.
Defined.

(** ** Obstacle distance *)

Lemma rng_random_range (G : Type) (B : BitGenerator G) (g : G) :
  0 <= fst (rng_random g) /\ fst (rng_random g) < 1.
Proof.
  unfold rng_random. destruct (next_uint64 g) as [w g']. cbn [fst].
  assert (Hw : (0 <= w mod 2 ^ 64 < 2 ^ 64)%Z) by (apply Z.mod_pos_bound; lia).
  rewrite Z.shiftr_div_pow2 by lia.
  assert (Hq : (0 <= (w mod 2 ^ 64) / 2 ^ 11 < 9007199254740992)%Z).
  { split.
    - apply Z.div_pos; lia.
    - apply Z.div_lt_upper_bound; lia. }
  unfold Qle, Qlt. cbn [Qnum Qden]. lia.
Qed.

(** Name the draws of [evolve], keeping the branch taken by each
    conditional draw and the range of each uniform variate. *)
Ltac step_draws :=
  repeat match goal with
         | |- context [let (_, _) := (if ?c then _ else _) in _] =>
           destruct c eqn:?
         | |- context [let (_, _) := rng_random ?g in _] =>
           let Hr := fresh "Hrange" in
           pose proof (rng_random_range _ _ g) as Hr;
           destruct (rng_random g); cbn [fst] in Hr
         | |- context [let (_, _) := ?e in _] => destruct e
         end.

(** One step of the obstacle state: a spawn in [6,35], or the previous
    distance plus 3, replaced by 999 once that exceeds 80. *)
Lemma evolve_obstacle_distance (G : Type) (B : BitGenerator G)
    (tk : Z) (base_ts : Q) (g : G) (w : Working) :
  let d := w_obstacle_distance_m w + 3 in
  let d' := obstacle_distance_m (evolve tk base_ts g w) in
  (6 <= d' /\ d' <= 35)
  \/ (d <= 80 /\ d' == d)
  \/ (80 < d /\ d' == 999).
Proof.
  cbv zeta. unfold evolve, rng_uniform. step_draws; cbn [obstacle_distance_m].
  all: try (left; lra).
  all: right; destruct (Qltb_spec 80 (w_obstacle_distance_m w + 3.0));
    [right | left]; split; try reflexivity; lra.
Qed.

(** C10.  The obstacle distance of every row the generator produces is in
    [6,80] or is the sentinel 999, never between 80 and 999 and never above
    999: a cold start begins from 999, and one step either spawns an obstacle
    at 6 to 35 or adds 3 to the previous distance and puts 999 in place of
    anything beyond 80. *)
Theorem obstacle_distance_unambiguous :
  forall (G : Type) (B : BitGenerator G),
    (forall r : TelemetryRow,
        produced r ->
        distance_or_sentinel (obstacle_distance_m r)
        /\ ~ (80 < obstacle_distance_m r /\ obstacle_distance_m r < 999)
        /\ ~ 999 < obstacle_distance_m r)
    /\ (forall (tk : Z) (base_ts : Q) (g : G) (w : Working),
           let d := w_obstacle_distance_m w + 3 in
           let d' := obstacle_distance_m (evolve tk base_ts g w) in
           (6 <= d' /\ d' <= 35)
           \/ (d <= 80 /\ d' == d)
           \/ (80 < d /\ d' == 999))
    /\ w_obstacle_distance_m cold_start == 999.
Proof.
  intros G B. split; [|split; [apply evolve_obstacle_distance | reflexivity]].
  intros r Hprod.
  assert (Hinv : distance_or_sentinel (obstacle_distance_m r)).
  { unfold distance_or_sentinel.
    induction Hprod as [tk base_ts | tk base_ts prev Hprev IH]; unfold generate_tick.
    - pose proof (evolve_obstacle_distance G B (tk + 1) base_ts
                    (default_rng (seed_of base_ts)) (initial_working None)) as Hstep.
      cbv zeta in Hstep.
      set (d' := obstacle_distance_m _) in *. clearbody d'.
      cbn [initial_working cold_start w_obstacle_distance_m] in Hstep.
      destruct Hstep as [Hs | [Hs | Hs]]; [left; lra | exfalso; lra | right; tauto].
    - pose proof (evolve_obstacle_distance G B (tk + 1) base_ts
                    (default_rng (seed_of base_ts)) (initial_working (Some prev))) as Hstep.
      cbv zeta in Hstep.
      set (d' := obstacle_distance_m (evolve _ _ _ _)) in *. clearbody d'.
      cbn [initial_working from_prev w_obstacle_distance_m] in Hstep.
      destruct Hstep as [Hs | [Hs | Hs]]; [left; lra | | right; tauto].
      destruct IH as [IH | IH]; [left; lra | exfalso; lra]. }
  split; [exact Hinv|].
  unfold distance_or_sentinel in Hinv. split; intro Hbad; destruct Hinv; lra.
Qed.

Lemma obstacle_distance_unambiguous_witness :
  distance_or_sentinel
    (obstacle_distance_m
       (generate_tick 1 (17 # 10) (Some (generate_tick 0 (3 # 10) None)))).
Proof.
  apply (proj1 (obstacle_distance_unambiguous Z LcgGenerator)).
  apply produced_next. apply produced_cold.
Defined.

(** ** Cold start *)

Lemma evolve_speed_range (G : Type) (B : BitGenerator G)
    (tk : Z) (base_ts : Q) (g : G) (w : Working) :
  0 <= speed_kph (evolve tk base_ts g w) /\ speed_kph (evolve tk base_ts g w) <= 12.
Proof.
  unfold evolve. name_draws. cbn [speed_kph]. apply clamp_within; lra.
Qed.

Lemma evolve_shift_hours (G : Type) (B : BitGenerator G)
    (tk : Z) (base_ts : Q) (g : G) (w : Working) :
  shift_hours (evolve tk base_ts g w) = w_shift_hours w + 1.0 / 60.0.
Proof.
  unfold evolve. name_draws. reflexivity.
Qed.

Lemma evolve_fuel (G : Type) (B : BitGenerator G)
    (tk : Z) (base_ts : Q) (g : G) (w : Working) :
  fuel_pct (evolve tk base_ts g w)
  = clamp (w_fuel_pct w - (0.03 + speed_kph (evolve tk base_ts g w) * 0.01)) 5.0 100.0.
Proof.
  unfold evolve. name_draws. reflexivity.
Qed.

Lemma evolve_tick_ts (G : Type) (B : BitGenerator G)
    (tk : Z) (base_ts : Q) (g : G) (w : Working) :
  tick (evolve tk base_ts g w) = tk /\ ts (evolve tk base_ts g w) = base_ts.
Proof.
  unfold evolve. name_draws. split; reflexivity.
Qed.

Lemma cold_row_shift_hours (G : Type) (B : BitGenerator G) (tk : Z) (base_ts : Q) :
  shift_hours (generate_tick tk base_ts None) == 2 + 1 / 60.
Proof.
  unfold generate_tick. rewrite evolve_shift_hours. reflexivity.
Qed.

(** The claim of C3 fails on a cold start at tick 0 and clock 0: the row
    returned has already run 1/60 h of shift. *)
Lemma cold_start_row_not_defaults :
  ~ carries_defaults (generate_tick (G := Z) 0 0 None).
Proof.
  unfold carries_defaults. intros (_ & _ & _ & _ & _ & _ & _ & _ & _ & Hshift & _).
  rewrite cold_row_shift_hours in Hshift. discriminate Hshift.
Qed.

(** C3, as the program has it.  A cold start gives the working variables
    their defaults and then runs the same step as any other tick on them.
    The row returned is that step's result: shift hours are 2 + 1/60, fuel is
    90 less the burn [0.03 + 0.01 * speed] of the new speed, the obstacle
    distance is 999 unless an obstacle spawns at 6 to 35, and the row never
    carries all the defaults. *)
Theorem cold_start_runs_one_step :
  forall (G : Type) (B : BitGenerator G) (ss_tick_now : Z) (base_ts : Q),
    let r := generate_tick ss_tick_now base_ts None in
    r = evolve (ss_tick_now + 1) base_ts (default_rng (seed_of base_ts)) cold_start
    /\ (w_speed_kph cold_start == 0
        /\ w_gear cold_start = 1%Z
        /\ w_engine_rpm cold_start = 800%Z
        /\ w_grade_pct cold_start == 0
        /\ w_ground_firmness cold_start == 0.7
        /\ w_moisture_index cold_start == 0.3
        /\ w_visibility cold_start == 0.9
        /\ w_fuel_pct cold_start == 90
        /\ w_obstacle_distance_m cold_start == 999
        /\ w_shift_hours cold_start == 2
        /\ w_micro_corr cold_start == 22)
    /\ shift_hours r == 2 + 1 / 60
    /\ fuel_pct r == 90 - (0.03 + 0.01 * speed_kph r)
    /\ fuel_pct r <= 89.97
    /\ (obstacle_distance_m r == 999
        \/ (6 <= obstacle_distance_m r /\ obstacle_distance_m r <= 35))
    /\ ~ carries_defaults r.
Proof.
  intros G B tk base_ts r. subst r.
  assert (Hfuel : fuel_pct (generate_tick tk base_ts None)
                  == 90 - (0.03 + 0.01 * speed_kph (generate_tick tk base_ts None))).
  { unfold generate_tick. rewrite evolve_fuel.
    cbn [initial_working cold_start w_fuel_pct].
    pose proof (evolve_speed_range G B (tk + 1) base_ts
                  (default_rng (seed_of base_ts)) cold_start) as Hspeed.
    set (s := speed_kph _) in *. clearbody s.
    rewrite clamp_inside; lra. }
  split; [reflexivity|].
  split; [repeat split; reflexivity|].
  split; [apply cold_row_shift_hours|].
  split; [exact Hfuel|].
  split.
  { pose proof (evolve_speed_range G B (tk + 1) base_ts
                  (default_rng (seed_of base_ts)) cold_start) as Hspeed.
    unfold generate_tick in *. cbn [initial_working] in *.
    set (s := speed_kph _) in *. clearbody s. lra. }
  split.
  { pose proof (evolve_obstacle_distance G B (tk + 1) base_ts
                  (default_rng (seed_of base_ts)) cold_start) as Hstep.
    cbv zeta in Hstep. unfold generate_tick. cbn [initial_working].
    set (d' := obstacle_distance_m _) in *. clearbody d'.
    cbn [cold_start w_obstacle_distance_m] in Hstep.
    destruct Hstep as [Hs | [Hs | Hs]]; [right; lra | exfalso; lra | left; tauto]. }
  unfold carries_defaults. intros (_ & _ & _ & _ & _ & _ & _ & _ & _ & Hshift & _).
  rewrite cold_row_shift_hours in Hshift. discriminate Hshift.
Qed.

(** ** Reproducibility *)

Lemma evolve_with_ts (G : Type) (B : BitGenerator G)
    (tk : Z) (t1 t2 : Q) (g : G) (w : Working) :
  with_ts t2 (evolve tk t1 g w) = evolve tk t2 g w.
Proof.
  unfold evolve. name_draws. reflexivity.
Qed.

Lemma initial_working_same_prev (p1 p2 : option TelemetryRow) :
  same_prev p1 p2 -> initial_working p1 = initial_working p2.
Proof.
  unfold same_prev. destruct p1 as [r1|], p2 as [r2|]; cbn; intro Heq;
    try discriminate; [|reflexivity].
  destruct r1, r2. unfold with_ts in Heq. cbn in Heq.
  injection Heq as <-; intros; subst. reflexivity.
Qed.

Lemma generate_tick_same_seed (G : Type) (B : BitGenerator G)
    (tk : Z) (t1 t2 : Q) (p1 p2 : option TelemetryRow) :
  seed_of t1 = seed_of t2 -> same_prev p1 p2 ->
  same_but_ts (generate_tick tk t1 p1) (generate_tick tk t2 p2).
Proof.
  intros Hseed Hprev. unfold same_but_ts, generate_tick.
  rewrite !evolve_with_ts, Hseed, (initial_working_same_prev _ _ Hprev).
  reflexivity.
Qed.

Lemma generate_tick_ts (G : Type) (B : BitGenerator G)
    (tk : Z) (t : Q) (p : option TelemetryRow) :
  ts (generate_tick tk t p) = t.
Proof.
  unfold generate_tick. apply evolve_tick_ts.
Qed.

(** The claim of C2 fails for the clock readings 0 and 1/2048: both give
    the seed 0, and the two cold-start rows differ in their timestamp. *)
Lemma same_seed_rows_differ :
  seed_of 0 = seed_of (1 # 2048)
  /\ generate_tick (G := Z) 0 0 None <> generate_tick (G := Z) 0 (1 # 2048) None.
Proof.
  split; [reflexivity|].
  intro Heq. apply (f_equal ts) in Heq. rewrite !generate_tick_ts in Heq.
  discriminate Heq.
Qed.

(** The seed is taken from the rounded product: the readings
    1762000000.0279999 and 1762000000.0275 differ in it, although the exact
    products have the same integer part. *)
Example seed_of_rounds_the_product :
  seed_of (115474432001835 # 65536) = 1063409078%Z
  /\ seed_of (7390363648115343 # 4194304) = 1063409077%Z.
Proof. vm_compute. split; reflexivity. Qed.

Lemma with_ts_idem (a b : Q) (r : TelemetryRow) :
  with_ts a (with_ts b r) = with_ts a r.
Proof. reflexivity. Qed.

Lemma maybe_generate_proposal_with_ts (tc tl x : Q) (r : TelemetryRow)
    (ss : SessionState) :
  maybe_generate_proposal tc tl (with_ts x r) ss = maybe_generate_proposal tc tl r ss.
Proof. reflexivity. Qed.

Lemma blank_log_audit (now : Q) (knd smry : string) (m : option PyDict)
    (ss : SessionState) :
  blank_history_ts (log_audit now knd smry m ss)
  = log_audit now knd smry m (blank_history_ts ss).
Proof. reflexivity. Qed.

Lemma blank_maybe_generate_proposal (tc tl : Q) (r : TelemetryRow)
    (ss : SessionState) :
  blank_history_ts (maybe_generate_proposal tc tl r ss)
  = maybe_generate_proposal tc tl r (blank_history_ts ss).
Proof.
  unfold maybe_generate_proposal. cbn [blank_history_ts ss_proposals].
  destruct (4 <=? List.length (filter is_pending (ss_proposals ss)))%nat;
    [reflexivity|].
  destruct (triggers_of r); reflexivity.
Qed.

Lemma last_row_map (f : TelemetryRow -> TelemetryRow) (h : list TelemetryRow) :
  last_row (map f h) = option_map f (last_row h).
Proof.
  destruct h as [| r rest]; [reflexivity|]. cbn [map last_row option_map]. f_equal.
  revert r. induction rest as [| a rest IH]; intro r; [reflexivity|].
  destruct rest as [| b rest']; [reflexivity|]. exact (IH r).
Qed.

Lemma py_last_map {A B : Type} (f : A -> B) (n : nat) (xs : list A) :
  py_last n (map f xs) = map f (py_last n xs).
Proof.
  unfold py_last. rewrite length_map. apply skipn_map.
Qed.

Lemma blank_history_ts_idem (ss : SessionState) :
  blank_history_ts (blank_history_ts ss) = blank_history_ts ss.
Proof.
  unfold blank_history_ts. cbn. f_equal. rewrite map_map. reflexivity.
Qed.

Section StepReproducible.
Context {G : Type} `{BitGenerator G}.

(** The step does not read the timestamps of the history. *)
Lemma simulation_step_blank_state (c : Clock) (ss : SessionState) :
  blank_history_ts (simulation_step c ss)
  = blank_history_ts (simulation_step c (blank_history_ts ss)).
Proof.
  unfold simulation_step.
  cbn [blank_history_ts ss_running ss_last_update ss_tick ss_history].
  destruct (ss_running ss && Qle_bool DT_SECONDS (t_check c - ss_last_update ss));
    [|symmetry; apply blank_history_ts_idem].
  assert (Hrow : generate_tick (ss_tick ss) (t_gen c)
                   (last_row (map (with_ts 0) (ss_history ss)))
                 = generate_tick (ss_tick ss) (t_gen c) (last_row (ss_history ss))).
  { unfold generate_tick. f_equal. apply initial_working_same_prev.
    unfold same_prev. rewrite last_row_map.
    destruct (last_row (ss_history ss)); reflexivity. }
  rewrite Hrow. set (r := generate_tick _ _ _).
  rewrite !blank_maybe_generate_proposal. f_equal.
  match goal with
  | |- blank_history_ts (if _ then _ else ?a) = blank_history_ts (if _ then _ else ?b) =>
    assert (Hss1 : blank_history_ts a = blank_history_ts b)
  end.
  { unfold blank_history_ts.
    cbn [ss_tick ss_running ss_last_update ss_history ss_proposals ss_audit
         ss_next_proposal_id].
    f_equal. rewrite <- !py_last_map, !map_app, map_map. reflexivity. }
  destruct (String.eqb (state r) "HIGH" || String.eqb (state r) "CRITICAL");
    rewrite ?blank_log_audit, Hss1; reflexivity.
Qed.

(** Of the reading taken inside [generate_tick] only the seed matters,
    except for the timestamp of the new row. *)
Lemma simulation_step_same_seed (c1 c2 : Clock) (ss : SessionState) :
  same_seed_clock c1 c2 ->
  blank_history_ts (simulation_step c1 ss) = blank_history_ts (simulation_step c2 ss).
Proof.
  intros (Hcheck & Hseed & Hupd & Halert & Hcreated & Hprop).
  unfold simulation_step. rewrite Hcheck, Hupd, Halert, Hcreated, Hprop.
  destruct (ss_running ss && Qle_bool DT_SECONDS (t_check c2 - ss_last_update ss));
    [|reflexivity].
  pose proof (generate_tick_same_seed G _ (ss_tick ss) (t_gen c1) (t_gen c2)
                (last_row (ss_history ss)) (last_row (ss_history ss))
                Hseed eq_refl) as Hrow.
  set (r1 := generate_tick _ (t_gen c1) _) in *.
  set (r2 := generate_tick _ (t_gen c2) _) in *.
  clearbody r1 r2. unfold same_but_ts in Hrow.
  rewrite !blank_maybe_generate_proposal.
  rewrite <- (maybe_generate_proposal_with_ts _ _ 0 r1).
  rewrite <- (maybe_generate_proposal_with_ts _ _ 0 r2).
  rewrite Hrow. f_equal.
  assert (Hstate : state r1 = state r2) by exact (f_equal state Hrow).
  assert (Htick : tick r1 = tick r2) by exact (f_equal tick Hrow).
  assert (Hrisk : overall_risk r1 = overall_risk r2)
    by exact (f_equal overall_risk Hrow).
  rewrite Hstate, Htick, Hrisk.
  match goal with
  | |- blank_history_ts (if _ then _ else ?a) = blank_history_ts (if _ then _ else ?b) =>
    assert (Hss1 : blank_history_ts a = blank_history_ts b)
  end.
  { unfold blank_history_ts.
    cbn [ss_tick ss_running ss_last_update ss_history ss_proposals ss_audit
         ss_next_proposal_id].
    f_equal. rewrite <- !py_last_map, !map_app. cbn [map]. rewrite Hrow. reflexivity. }
  destruct (String.eqb (state r2) "HIGH" || String.eqb (state r2) "CRITICAL");
    rewrite ?blank_log_audit, Hss1; reflexivity.
Qed.

Lemma simulation_step_reproducible (c1 c2 : Clock) (s1 s2 : SessionState) :
  same_seed_clock c1 c2 -> same_but_row_ts s1 s2 ->
  same_but_row_ts (simulation_step c1 s1) (simulation_step c2 s2).
Proof.
  unfold same_but_row_ts. intros Hclock Hstate.
  rewrite (simulation_step_blank_state c1 s1), Hstate.
  rewrite <- (simulation_step_blank_state c1 s2).
  now apply simulation_step_same_seed.
Qed.
End StepReproducible.

(** C2, as the program has it.  [generate_tick] takes no random source: it
    seeds one from the clock at every call.  From the same tick counter and
    from previous rows equal but for their timestamps, two calls whose clock
    readings give the same seed (the integer part of the binary64 product
    of the reading and 1000, reduced modulo 2^32 - 1) return rows equal in
    every field but [ts],
    which is the reading itself; and two drives of the loop whose clocks
    agree in that way end in states equal but for the timestamps of the
    history rows. *)
Theorem generate_tick_reproducible_but_ts :
  forall (G : Type) (B : BitGenerator G),
    (forall (ss_tick_now : Z) (t1 t2 : Q) (p1 p2 : option TelemetryRow),
        seed_of t1 = seed_of t2 ->
        same_prev p1 p2 ->
        same_but_ts (generate_tick ss_tick_now t1 p1) (generate_tick ss_tick_now t2 p2)
        /\ ts (generate_tick ss_tick_now t1 p1) = t1
        /\ ts (generate_tick ss_tick_now t2 p2) = t2)
    /\ (forall (cs1 cs2 : list Clock) (s1 s2 : SessionState),
           Forall2 same_seed_clock cs1 cs2 ->
           same_but_row_ts s1 s2 ->
           same_but_row_ts (drive cs1 s1) (drive cs2 s2)).
Proof.
  intros G B. split.
  - intros tk t1 t2 p1 p2 Hseed Hprev. split; [|split].
    + now apply generate_tick_same_seed.
    + apply generate_tick_ts.
    + apply generate_tick_ts.
  - intros cs1 cs2 s1 s2 Hclocks. revert s1 s2.
    induction Hclocks as [| c1 c2 cs1 cs2 Hc _ IH]; intros s1 s2 Hstate.
    + exact Hstate.
    + cbn [drive]. apply IH. now apply simulation_step_reproducible.
Qed.

Lemma generate_tick_reproducible_but_ts_witness :
  same_but_row_ts (drive (G := Z) (five_ticks 0) started)
                  (drive (G := Z) (five_ticks (1 # 2048)) started)
  /\ same_but_ts (generate_tick (G := Z) 0 0 None)
                 (generate_tick (G := Z) 0 (1 # 2048) None).
Proof.
  destruct (generate_tick_reproducible_but_ts Z LcgGenerator) as [Hrow Hdrive].
  split.
  - apply Hdrive; [|reflexivity].
    unfold five_ticks. cbn [map].
    repeat (constructor; [repeat split; reflexivity|]). constructor.
  - apply Hrow; reflexivity.
Defined.

Example five_ticks_all_run :
  List.length (ss_history (drive (G := Z) (five_ticks (1 # 2048)) started)) = 5%nat.
Proof. vm_compute. reflexivity. Qed.

(** ** Decisions *)

Lemma update_at_length {A : Type} (i : nat) (f : A -> A) (xs : list A) :
  List.length (update_at i f xs) = List.length xs.
Proof.
  revert i. induction xs as [| x xs IH]; intros [| i]; cbn; try reflexivity.
  now rewrite IH.
Qed.

Lemma update_at_same {A : Type} (i : nat) (f : A -> A) (xs : list A) (x : A) :
  nth_error xs i = Some x -> nth_error (update_at i f xs) i = Some (f x).
Proof.
  revert i. induction xs as [| y xs IH]; intros [| i] Hnth; cbn in *;
    try discriminate.
  - now injection Hnth as ->.
  - now apply IH.
Qed.

Lemma update_at_other {A : Type} (i j : nat) (f : A -> A) (xs : list A) :
  j <> i -> nth_error (update_at i f xs) j = nth_error xs j.
Proof.
  revert i j. induction xs as [| y xs IH]; intros [| i] [| j] Hne; cbn;
    try reflexivity; try contradiction.
  apply IH. congruence.
Qed.

Lemma update_at_map {A B : Type} (g : A -> B) (i : nat) (f : A -> A) (xs : list A) :
  (forall x, g (f x) = g x) -> map g (update_at i f xs) = map g xs.
Proof.
  intro Hg. revert i. induction xs as [| y xs IH]; intros [| i]; cbn;
    try reflexivity.
  - now rewrite Hg.
  - now rewrite IH.
Qed.

Lemma update_proposal_status_result (t_logged : Q) (i : nat) (new_status : string)
    (ss : SessionState) (p : Proposal) :
  nth_error (ss_proposals ss) i = Some p ->
  update_proposal_status t_logged i new_status ss
  = Some {| ss_tick := ss_tick ss;
            ss_running := ss_running ss;
            ss_last_update := ss_last_update ss;
            ss_history := ss_history ss;
            ss_proposals := update_at i (set_status new_status) (ss_proposals ss);
            ss_audit := py_last 150 (ss_audit ss ++ [decision_entry t_logged new_status p]);
            ss_next_proposal_id := ss_next_proposal_id ss |}.
Proof.
  intro Hnth. unfold update_proposal_status. rewrite Hnth. reflexivity.
Qed.

Lemma find_proposal_none (pid : Z) (ps : list Proposal) :
  find_proposal pid ps = None <-> forall p, In p ps -> proposal_id p <> pid.
Proof.
  induction ps as [| q ps IH]; cbn [find_proposal].
  - split; [intros _ p [] | reflexivity].
  - destruct (Z.eqb_spec (proposal_id q) pid) as [Heq | Hne].
    + split; [discriminate|]. intro Hall. exfalso. apply (Hall q); [now left | exact Heq].
    + destruct (find_proposal pid ps) as [k|]; cbn [option_map].
      * split; [discriminate|]. intro Hall. exfalso.
        destruct IH as [_ IH]. discriminate IH. intros p Hin. apply Hall. now right.
      * split; [|reflexivity]. intros _ p [<- | Hin]; [exact Hne|].
        destruct IH as [IH _]. now apply IH.
Qed.

Lemma string_eqb_neq (a b : string) : a <> b -> String.eqb a b = false.
Proof.
  intro Hne. destruct (String.eqb_spec a b); [contradiction | reflexivity].
Qed.

Lemma find_proposal_some (pid : Z) (ps : list Proposal) (i : nat) :
  find_proposal pid ps = Some i ->
  exists p, nth_error ps i = Some p /\ proposal_id p = pid.
Proof.
  revert i. induction ps as [| q ps IH]; intros i Hfind; cbn in Hfind;
    [discriminate|].
  destruct (Z.eqb_spec (proposal_id q) pid) as [Heq | Hne].
  - injection Hfind as <-. exists q. split; [reflexivity | exact Heq].
  - destruct (find_proposal pid ps) as [j|]; cbn in Hfind; [|discriminate].
    injection Hfind as <-. destruct (IH j eq_refl) as (p & Hnth & Hid).
    exists p. split; assumption.
Qed.

Lemma find_proposal_update_at (pid : Z) (i : nat) (f : Proposal -> Proposal)
    (ps : list Proposal) :
  (forall p, proposal_id (f p) = proposal_id p) ->
  find_proposal pid (update_at i f ps) = find_proposal pid ps.
Proof.
  intro Hid. revert i. induction ps as [| q ps IH]; intros [| i]; cbn;
    try reflexivity.
  - now rewrite Hid.
  - now rewrite IH.
Qed.

(** C1.  A decision on the id [pid] with one of the statuses APPROVED,
    REJECTED, DEFERRED fails and leaves the session as it was when no
    proposal has that id and when the proposal found is not PENDING.  When
    the proposal is PENDING the decision takes place: that proposal gets the
    new status and exactly one audit entry of kind decision is appended,
    recording the previous status PENDING.  A further decision on the same
    id then fails and changes nothing. *)
Theorem decide_only_pending :
  forall (pid : Z) (d : Decision) (t_logged : Q) (ss : SessionState),
    ((forall p, In p (ss_proposals ss) -> proposal_id p <> pid) ->
     decide pid (decision_status d) t_logged ss = (false, ss))
    /\ (forall (i : nat) (p : Proposal),
           find_proposal pid (ss_proposals ss) = Some i ->
           nth_error (ss_proposals ss) i = Some p ->
           proposal_id p = pid
           /\ (status p <> "PENDING" ->
               decide pid (decision_status d) t_logged ss = (false, ss))
           /\ (status p = "PENDING" ->
               exists ss',
                 decide pid (decision_status d) t_logged ss = (true, ss')
                 /\ nth_error (ss_proposals ss') i
                    = Some (set_status (decision_status d) p)
                 /\ status (set_status (decision_status d) p) = decision_status d
                 /\ ss_audit ss'
                    = py_last 150
                        (ss_audit ss ++ [decision_entry t_logged (decision_status d) p])
                 /\ kind (decision_entry t_logged (decision_status d) p) = "decision"
                 /\ In ("prev", PStr "PENDING")
                       (meta (decision_entry t_logged (decision_status d) p))
                 /\ (forall (d_again : Decision) (t_again : Q),
                        decide pid (decision_status d_again) t_again ss'
                        = (false, ss')))).
Proof.
  intros pid d t_logged ss. split.
  - intro Hnone. unfold decide.
    now rewrite (proj2 (find_proposal_none pid (ss_proposals ss)) Hnone).
  - intros i p Hfind Hnth.
    destruct (find_proposal_some _ _ _ Hfind) as (p0 & Hnth0 & Hid0).
    assert (Hp : p0 = p) by congruence. subst p0.
    split; [exact Hid0|]. split.
    + intro Hdecided. unfold decide. rewrite Hfind, Hnth.
      now rewrite (string_eqb_neq _ _ Hdecided).
    + intro Hpending. unfold decide. rewrite Hfind, Hnth, Hpending.
      cbn [String.eqb Ascii.eqb Bool.eqb].
      rewrite (update_proposal_status_result _ _ _ _ _ Hnth).
      eexists. split; [reflexivity|]. cbn [ss_proposals ss_audit].
      split; [now apply update_at_same|]. split; [reflexivity|].
      split; [reflexivity|]. split; [reflexivity|].
      split; [right; left; now rewrite Hpending|].
      intros d_again t_again. unfold decide. cbn [ss_proposals].
      rewrite find_proposal_update_at by reflexivity.
      rewrite Hfind, (update_at_same _ _ _ _ Hnth). cbn [set_status status].
      destruct d; reflexivity.
Qed.

Lemma decide_only_pending_witness :
  decide 1 (decision_status Reject) 200 one_approved = (false, one_approved)
  /\ decide 9 (decision_status Approve) 200 four_pending = (false, four_pending)
  /\ fst (decide 2 (decision_status Approve) 200 four_pending) = true.
Proof.
  destruct (decide_only_pending 1 Reject 200 one_approved) as [_ Hfound].
  destruct (Hfound 0%nat (sample_proposal 1 "APPROVED") eq_refl eq_refl)
    as (_ & Hdecided & _).
  destruct (decide_only_pending 9 Approve 200 four_pending) as [Hunknown _].
  destruct (decide_only_pending 2 Approve 200 four_pending) as [_ Hfound2].
  destruct (Hfound2 1%nat (sample_proposal 2 "PENDING") eq_refl eq_refl)
    as (_ & _ & Hpending).
  split; [apply Hdecided; discriminate|].
  split.
  - apply Hunknown. intros p Hin. cbn in Hin.
    destruct Hin as [<- | [<- | [<- | [<- | []]]]]; discriminate.
  - destruct (Hpending eq_refl) as (ss' & -> & _). reflexivity.
Defined.

(** C9.  A decision changes the status of the proposal it is given and
    nothing else among the proposals: that proposal keeps its id, creation
    time, title, rationale and snapshot, every other position holds the
    proposal it held, and the collection keeps its length and order; tick,
    history and id counter of the session are untouched as well. *)
Theorem update_proposal_status_frame :
  forall (t_logged : Q) (i : nat) (new_status : string) (ss ss' : SessionState),
    update_proposal_status t_logged i new_status ss = Some ss' ->
    (exists p p',
        nth_error (ss_proposals ss) i = Some p
        /\ nth_error (ss_proposals ss') i = Some p'
        /\ status p' = new_status
        /\ proposal_id p' = proposal_id p
        /\ created_ts p' = created_ts p
        /\ title p' = title p
        /\ rationale p' = rationale p
        /\ snapshot p' = snapshot p)
    /\ (forall j, j <> i ->
                  nth_error (ss_proposals ss') j = nth_error (ss_proposals ss) j)
    /\ List.length (ss_proposals ss') = List.length (ss_proposals ss)
    /\ map proposal_id (ss_proposals ss') = map proposal_id (ss_proposals ss)
    /\ ss_tick ss' = ss_tick ss
    /\ ss_history ss' = ss_history ss
    /\ ss_next_proposal_id ss' = ss_next_proposal_id ss.
Proof.
  intros t_logged i new_status ss ss' Hupd.
  destruct (nth_error (ss_proposals ss) i) as [p|] eqn:Hnth.
  2:{ unfold update_proposal_status in Hupd. rewrite Hnth in Hupd. discriminate. }
  rewrite (update_proposal_status_result _ _ _ _ _ Hnth) in Hupd.
  injection Hupd as <-. cbn [ss_proposals ss_tick ss_history ss_next_proposal_id].
  split.
  { exists p, (set_status new_status p). split; [reflexivity|].
    split; [now apply update_at_same|]. repeat split. }
  split; [intros j Hj; now apply update_at_other|].
  split; [apply update_at_length|].
  split; [now apply update_at_map|].
  repeat split.
Qed.

Lemma update_proposal_status_frame_witness :
  exists ss',
    update_proposal_status 200 1%nat "APPROVED" four_pending = Some ss'
    /\ List.length (ss_proposals ss') = 4%nat
    /\ map proposal_id (ss_proposals ss') = [1; 2; 3; 4]%Z.
Proof.
  eexists. split; [reflexivity|].
  destruct (update_proposal_status_frame 200 1%nat "APPROVED" four_pending _ eq_refl)
    as (_ & _ & Hlen & Hids & _).
  split; [exact Hlen | exact Hids].
Defined.

(** ** Backpressure *)

Lemma pending_after_update (i : nat) (new_status : string) (ps : list Proposal) :
  new_status <> "PENDING" ->
  (List.length (filter is_pending (update_at i (set_status new_status) ps))
   <= List.length (filter is_pending ps))%nat.
Proof.
  intro Hnew. revert i. induction ps as [| q ps IH]; intros [| i]; cbn [update_at filter].
  - reflexivity.
  - reflexivity.
  - assert (Hnow : is_pending (set_status new_status q) = false)
      by (unfold is_pending; cbn [set_status status]; now apply string_eqb_neq).
    rewrite Hnow. destruct (is_pending q); cbn [List.length]; lia.
  - specialize (IH i). destruct (is_pending q); cbn [List.length]; lia.
Qed.

Lemma pending_after_decision (i : nat) (new_status : string) (ps : list Proposal)
    (p : Proposal) :
  new_status <> "PENDING" ->
  nth_error ps i = Some p ->
  status p = "PENDING" ->
  S (List.length (filter is_pending (update_at i (set_status new_status) ps)))
  = List.length (filter is_pending ps).
Proof.
  intros Hnew. revert i. induction ps as [| q ps IH]; intros [| i] Hnth Hpend;
    cbn in Hnth; try discriminate; cbn [update_at filter].
  - injection Hnth as ->.
    assert (Hwas : is_pending p = true) by (unfold is_pending; now rewrite Hpend).
    assert (Hnow : is_pending (set_status new_status p) = false)
      by (unfold is_pending; cbn [set_status status]; now apply string_eqb_neq).
    rewrite Hwas, Hnow. reflexivity.
  - specialize (IH i Hnth Hpend). destruct (is_pending q); cbn [List.length]; lia.
Qed.

Lemma maybe_generate_proposal_new (tc tl : Q) (latest : TelemetryRow)
    (ss : SessionState) :
  (pending_count ss < 4)%nat ->
  triggers_of latest <> [] ->
  ss_proposals (maybe_generate_proposal tc tl latest ss)
  = ss_proposals ss
    ++ [mkProposal (ss_next_proposal_id ss) tc (title_of (triggers_of latest))
          (join " · " (bits_of (triggers_of latest) latest)) "PENDING"
          (snapshot_of latest)].
Proof.
  intros Hroom Htrig. unfold maybe_generate_proposal. unfold pending_count in Hroom.
  destruct (Nat.leb_spec 4 (List.length (filter is_pending (ss_proposals ss))));
    [lia|].
  destruct (triggers_of latest) as [| t rest]; [contradiction | reflexivity].
Qed.

Lemma maybe_generate_proposal_pending (tc tl : Q) (latest : TelemetryRow)
    (ss : SessionState) :
  (pending_count ss <= 4)%nat ->
  (pending_count (maybe_generate_proposal tc tl latest ss) <= 4)%nat.
Proof.
  intro Hcap. unfold maybe_generate_proposal, pending_count in *.
  destruct (Nat.leb_spec 4 (List.length (filter is_pending (ss_proposals ss))));
    [exact Hcap|].
  destruct (triggers_of latest) as [| t rest]; [exact Hcap|].
  cbn [log_audit ss_proposals]. rewrite filter_app, length_app. cbn. lia.
Qed.

(** C6.  With four or more proposals PENDING, [maybe_generate_proposal]
    leaves the session as it is, whatever the row; hence the count of
    PENDING proposals, once at most 4, stays so through proposal generation,
    through a whole simulation step and through decisions.  Deciding one of
    four PENDING proposals makes room: the next row with a firing trigger
    adds a new PENDING proposal with the next id. *)
Theorem backpressure_caps_pending_at_4 :
  (forall (tc tl : Q) (latest : TelemetryRow) (ss : SessionState),
      (4 <= pending_count ss)%nat ->
      maybe_generate_proposal tc tl latest ss = ss)
  /\ (forall (tc tl : Q) (latest : TelemetryRow) (ss : SessionState),
         (pending_count ss <= 4)%nat ->
         (pending_count (maybe_generate_proposal tc tl latest ss) <= 4)%nat)
  /\ (forall (G : Type) (B : BitGenerator G) (c : Clock) (ss : SessionState),
         (pending_count ss <= 4)%nat ->
         (pending_count (simulation_step c ss) <= 4)%nat)
  /\ (forall (t_logged : Q) (i : nat) (new_status : string) (ss ss' : SessionState),
         new_status <> "PENDING" ->
         update_proposal_status t_logged i new_status ss = Some ss' ->
         (pending_count ss' <= pending_count ss)%nat)
  /\ (forall (t_logged tc tl : Q) (i : nat) (new_status : string)
             (latest : TelemetryRow) (ss ss' : SessionState) (p : Proposal),
         pending_count ss = 4%nat ->
         nth_error (ss_proposals ss) i = Some p ->
         status p = "PENDING" ->
         new_status <> "PENDING" ->
         update_proposal_status t_logged i new_status ss = Some ss' ->
         triggers_of latest <> [] ->
         let ss'' := maybe_generate_proposal tc tl latest ss' in
         (exists created,
             ss_proposals ss'' = ss_proposals ss' ++ [created]
             /\ status created = "PENDING"
             /\ proposal_id created = ss_next_proposal_id ss)
         /\ pending_count ss' = 3%nat
         /\ pending_count ss'' = 4%nat).
Proof.
  split; [|split; [|split; [|split]]].
  - intros tc tl latest ss Hfull. unfold maybe_generate_proposal.
    unfold pending_count in Hfull.
    destruct (Nat.leb_spec 4 (List.length (filter is_pending (ss_proposals ss))));
      [reflexivity | lia].
  - apply maybe_generate_proposal_pending.
  - intros G B c ss Hcap. unfold simulation_step.
    destruct (ss_running ss && Qle_bool DT_SECONDS (t_check c - ss_last_update ss));
      [|exact Hcap].
    apply maybe_generate_proposal_pending.
    match goal with
    | |- context [if ?b then _ else _] => destruct b
    end; exact Hcap.
  - intros t_logged i new_status ss ss' Hnew Hupd.
    destruct (nth_error (ss_proposals ss) i) as [p|] eqn:Hnth.
    2:{ unfold update_proposal_status in Hupd. rewrite Hnth in Hupd. discriminate. }
    rewrite (update_proposal_status_result _ _ _ _ _ Hnth) in Hupd.
    injection Hupd as <-. unfold pending_count. cbn [ss_proposals].
    now apply pending_after_update.
  - intros t_logged tc tl i new_status latest ss ss' p Hfour Hnth Hpend Hnew Hupd
           Htrig ss''.
    rewrite (update_proposal_status_result _ _ _ _ _ Hnth) in Hupd.
    injection Hupd as <-.
    pose proof (pending_after_decision i new_status _ p Hnew Hnth Hpend) as Hone.
    unfold pending_count in Hfour.
    set (decided := mkSessionState _ _ _ _ _ _ _) in *.
    assert (Hthree : pending_count decided = 3%nat).
    { unfold pending_count, decided. cbn [ss_proposals]. lia. }
    assert (Hnewprop := maybe_generate_proposal_new tc tl latest decided
                          ltac:(lia) Htrig).
    split; [|split].
    + eexists. split; [exact Hnewprop|]. split; reflexivity.
    + exact Hthree.
    + unfold pending_count in *. subst ss''. rewrite Hnewprop.
      rewrite filter_app, length_app, Hthree. reflexivity.
Qed.

Lemma backpressure_caps_pending_at_4_witness :
  maybe_generate_proposal 300 301 risky_row four_pending = four_pending
  /\ exists ss',
      update_proposal_status 200 1 "APPROVED" four_pending = Some ss'
      /\ pending_count (maybe_generate_proposal 300 301 risky_row ss') = 4%nat
      /\ List.length (ss_proposals (maybe_generate_proposal 300 301 risky_row ss'))
         = 5%nat.
Proof.
  destruct backpressure_caps_pending_at_4 as (Hfull & _ & _ & _ & Hroom).
  split.
  - apply Hfull. vm_compute. lia.
  - eexists. split; [reflexivity|].
    match goal with
    | |- pending_count (maybe_generate_proposal _ _ _ ?s) = _ /\ _ =>
      destruct (Hroom 200 300 301 1%nat "APPROVED" risky_row four_pending s
                  (sample_proposal 2 "PENDING"))
        as ((created & Hcreated & _) & _ & Hcount)
    end.
    + reflexivity.
    + reflexivity.
    + reflexivity.
    + discriminate.
    + reflexivity.
    + discriminate.
    + split; [exact Hcount|]. rewrite Hcreated. reflexivity.
Defined.

(** * Further properties of the program *)

(** ** Risk engine *)

Lemma clamp_monotone (v v' lo hi : Q) :
  v <= v' -> clamp v lo hi <= clamp v' lo hi.
Proof.
  intro Hle. unfold clamp, py_max, py_min.
  destruct (Qltb_spec v hi); destruct (Qltb_spec v' hi);
    repeat match goal with
           | |- context [Qltb ?a ?b] => destruct (Qltb_spec a b)
           end; lra.
Qed.

Lemma clamp_compat (v v' lo hi : Q) :
  v == v' -> clamp v lo hi == clamp v' lo hi.
Proof.
  intro Heq. apply Qle_antisym; apply clamp_monotone; lra.
Qed.

Lemma clamp_low (v lo hi : Q) : lo <= hi -> v <= lo -> clamp v lo hi == lo.
Proof.
  intros Hle Hv. unfold clamp, py_max, py_min.
  destruct (Qltb_spec v hi); [destruct (Qltb_spec lo v) | destruct (Qltb_spec lo hi)];
    lra.
Qed.

Lemma clamp_high (v lo hi : Q) : lo <= hi -> hi <= v -> clamp v lo hi == hi.
Proof.
  intros Hle Hv. unfold clamp, py_max, py_min.
  destruct (Qltb_spec v hi); [destruct (Qltb_spec lo v) | destruct (Qltb_spec lo hi)];
    lra.
Qed.

Lemma Qdiv_monotone (a b c : Q) : 0 < c -> a <= b -> a / c <= b / c.
Proof.
  intros Hc Hab. unfold Qdiv. apply Qmult_le_compat_r; [exact Hab|].
  apply Qlt_le_weak, Qinv_lt_0_compat, Hc.
Qed.

(** X1.  [clamp] pins a value into [lo, hi]: it is the value itself inside
    the interval, [lo] at and below it, [hi] at and above it, and it keeps
    the order of its inputs.  With the bounds the wrong way round it
    returns [lo]. *)
Theorem clamp_saturates :
  (forall v lo hi : Q,
      lo <= hi ->
      (v <= lo -> clamp v lo hi == lo)
      /\ (hi <= v -> clamp v lo hi == hi)
      /\ (lo <= v -> v <= hi -> clamp v lo hi == v)
      /\ (forall v', v <= v' -> clamp v lo hi <= clamp v' lo hi))
  /\ (forall v lo hi : Q, hi < lo -> clamp v lo hi == lo).
Proof.
  split.
  - intros v lo hi Hle. split; [|split; [|split]].
    + now apply clamp_low.
    + now apply clamp_high.
    + apply clamp_inside.
    + intros v'. apply clamp_monotone.
  - intros v lo hi Hlt. unfold clamp, py_max, py_min.
    destruct (Qltb_spec v hi); [destruct (Qltb_spec lo v) | destruct (Qltb_spec lo hi)];
      lra.
Qed.

Lemma clamp_saturates_witness :
  clamp 13 0 12 == 12 /\ clamp (-1) 0 12 == 0 /\ clamp 7 12 0 == 12.
Proof.
  destruct clamp_saturates as [Hin Hout].
  destruct (Hin 13 0 12) as (_ & Hhi & _); [discriminate|].
  destruct (Hin (-1) 0 12) as (Hlo & _); [discriminate|].
  split; [apply Hhi; discriminate|].
  split; [apply Hlo; discriminate|].
  apply Hout. reflexivity.
Defined.

(** X2.  The rollover risk reads roll and grade through their absolute
    values, so it is the same on either side of level, and it never falls
    when the tilt, the slope or the speed grows. *)
Theorem rollover_risk_symmetric_monotone :
  (forall g r s : Q,
      compute_rollover_risk (- g) r s == compute_rollover_risk g r s
      /\ compute_rollover_risk g (- r) s == compute_rollover_risk g r s)
  /\ (forall g g' r r' s s' : Q,
         Qabs g <= Qabs g' -> Qabs r <= Qabs r' -> s <= s' ->
         compute_rollover_risk g r s <= compute_rollover_risk g' r' s').
Proof.
  split.
  - intros g r s. unfold compute_rollover_risk.
    split; apply clamp_compat; rewrite Qabs_opp; reflexivity.
  - intros g g' r r' s s' Hg Hr Hs. unfold compute_rollover_risk.
    apply clamp_monotone.
    pose proof (Qdiv_monotone _ _ 25.0 eq_refl Hg) as Hg'.
    pose proof (Qdiv_monotone _ _ 20.0 eq_refl Hr) as Hr'.
    pose proof (Qdiv_monotone _ _ 12.0 eq_refl Hs) as Hs'.
    set (a := Qabs g / _) in *. set (a' := Qabs g' / _) in *.
    set (b := Qabs r / _) in *. set (b' := Qabs r' / _) in *.
    set (c := s / _) in *. set (c' := s' / _) in *.
    clearbody a a' b b' c c'. lra.
Qed.

Lemma rollover_risk_symmetric_monotone_witness :
  compute_rollover_risk 5 (-3) 2 <= compute_rollover_risk (-10) 6 4.
Proof.
  apply (proj2 rollover_risk_symmetric_monotone); discriminate.
Defined.

(** X3.  Only a downhill grade adds to the slip risk: level or uphill
    ground scores as grade 0, and the grade term stops growing at 24 %.
    The risk never falls when grade, moisture or speed grows or when the
    ground gets softer. *)
Theorem slip_risk_downhill_only :
  (forall g m f s : Q,
      g <= 0 -> compute_slip_risk g m f s == compute_slip_risk 0 m f s)
  /\ (forall g m f s : Q,
         24 <= g -> compute_slip_risk g m f s == compute_slip_risk 24 m f s)
  /\ (forall g g' m m' f f' s s' : Q,
         g <= g' -> m <= m' -> f' <= f -> s <= s' ->
         compute_slip_risk g m f s <= compute_slip_risk g' m' f' s').
Proof.
  assert (Hdown : forall g g', g <= g' ->
            py_max 0.0 (clamp (g / 20.0) (-1.2) 1.2)
            <= py_max 0.0 (clamp (g' / 20.0) (-1.2) 1.2)).
  { intros g g' Hg.
    assert (Hc : clamp (g / 20.0) (-1.2) 1.2 <= clamp (g' / 20.0) (-1.2) 1.2)
      by (apply clamp_monotone, Qdiv_monotone; [reflexivity | exact Hg]).
    unfold py_max.
    repeat match goal with
           | |- context [Qltb ?a ?b] => destruct (Qltb_spec a b)
           end; lra. }
  split; [|split].
  - intros g m f s Hg. unfold compute_slip_risk. apply clamp_compat.
    assert (Hz : py_max 0.0 (clamp (g / 20.0) (-1.2) 1.2)
                 == py_max 0.0 (clamp (0 / 20.0) (-1.2) 1.2)).
    { apply Qle_antisym; [apply Hdown; exact Hg|].
      eapply Qle_trans; [|apply py_max_ge_l].
      vm_compute. discriminate. }
    rewrite Hz. reflexivity.
  - intros g m f s Hg. unfold compute_slip_risk. apply clamp_compat.
    assert (Hz : py_max 0.0 (clamp (g / 20.0) (-1.2) 1.2)
                 == py_max 0.0 (clamp (24 / 20.0) (-1.2) 1.2)).
    { apply Qle_antisym; [|apply Hdown; exact Hg].
      apply py_max_lub; [vm_compute; discriminate|].
      eapply Qle_trans; [apply clamp_upper; lra|]. vm_compute. discriminate. }
    rewrite Hz. reflexivity.
  - intros g g' m m' f f' s s' Hg Hm Hf Hs. unfold compute_slip_risk.
    apply clamp_monotone. specialize (Hdown g g' Hg).
    pose proof (Qdiv_monotone _ _ 10.0 eq_refl Hs) as Hs'.
    set (d := py_max _ _) in *. set (d' := py_max _ _) in *.
    set (c := s / _) in *. set (c' := s' / _) in *.
    clearbody d d' c c'. lra.
Qed.

Lemma slip_risk_downhill_only_witness :
  compute_slip_risk (-8) 0.3 0.7 4 == compute_slip_risk 0 0.3 0.7 4
  /\ compute_slip_risk 30 0.3 0.7 4 == compute_slip_risk 24 0.3 0.7 4
  /\ compute_slip_risk 2 0.3 0.7 4 <= compute_slip_risk 9 0.5 0.4 6.
Proof.
  destruct slip_risk_downhill_only as (Hup & Hsat & Hmono).
  split; [apply Hup; discriminate|].
  split; [apply Hsat; discriminate|].
  apply Hmono; discriminate.
Defined.

(** X4.  The GNSS confidence never falls when HDOP or jitter shrink or
    visibility improves; it is 0 once HDOP is 3.5 or more, jitter 3 m or
    more and visibility 0 or less, and 100 once HDOP and jitter are 0 or
    less and visibility 1 or more. *)
Theorem gnss_confidence_monotone_extremes :
  (forall h h' j j' v v' : Q,
      h' <= h -> j' <= j -> v <= v' ->
      compute_gnss_confidence h j v <= compute_gnss_confidence h' j' v')
  /\ (forall h j v : Q,
         3.5 <= h -> 3 <= j -> v <= 0 -> compute_gnss_confidence h j v == 0)
  /\ (forall h j v : Q,
         h <= 0 -> j <= 0 -> 1 <= v -> compute_gnss_confidence h j v == 100).
Proof.
  split; [|split].
  - intros h h' j j' v v' Hh Hj Hv. unfold compute_gnss_confidence.
    apply clamp_monotone.
    assert (H1 : clamp ((3.5 - h) / 3.5) 0.0 1.0 <= clamp ((3.5 - h') / 3.5) 0.0 1.0)
      by (apply clamp_monotone, Qdiv_monotone; [reflexivity | lra]).
    assert (H2 : clamp ((3.0 - j) / 3.0) 0.0 1.0 <= clamp ((3.0 - j') / 3.0) 0.0 1.0)
      by (apply clamp_monotone, Qdiv_monotone; [reflexivity | lra]).
    assert (H3 : clamp v 0.0 1.0 <= clamp v' 0.0 1.0) by now apply clamp_monotone.
    set (a := clamp _ _ _) in *. set (a' := clamp _ _ _) in *.
    set (b := clamp _ _ _) in *. set (b' := clamp _ _ _) in *.
    set (c := clamp _ _ _) in *. set (c' := clamp _ _ _) in *.
    clearbody a a' b b' c c'. lra.
  - intros h j v Hh Hj Hv. unfold compute_gnss_confidence.
    assert (H1 : clamp ((3.5 - h) / 3.5) 0.0 1.0 == 0.0).
    { apply clamp_low; [discriminate|].
      apply Qle_shift_div_r; [reflexivity | lra]. }
    assert (H2 : clamp ((3.0 - j) / 3.0) 0.0 1.0 == 0.0).
    { apply clamp_low; [discriminate|].
      apply Qle_shift_div_r; [reflexivity | lra]. }
    assert (H3 : clamp v 0.0 1.0 == 0.0) by (apply clamp_low; [discriminate | lra]).
    set (a := clamp _ 0.0 1.0) in *. set (b := clamp _ 0.0 1.0) in *.
    set (c := clamp _ 0.0 1.0) in *. clearbody a b c.
    rewrite clamp_inside; lra.
  - intros h j v Hh Hj Hv. unfold compute_gnss_confidence.
    assert (H1 : clamp ((3.5 - h) / 3.5) 0.0 1.0 == 1.0).
    { apply clamp_high; [discriminate|].
      apply Qle_shift_div_l; [reflexivity | lra]. }
    assert (H2 : clamp ((3.0 - j) / 3.0) 0.0 1.0 == 1.0).
    { apply clamp_high; [discriminate|].
      apply Qle_shift_div_l; [reflexivity | lra]. }
    assert (H3 : clamp v 0.0 1.0 == 1.0) by (apply clamp_high; [discriminate | lra]).
    set (a := clamp _ 0.0 1.0) in *. set (b := clamp _ 0.0 1.0) in *.
    set (c := clamp _ 0.0 1.0) in *. clearbody a b c.
    rewrite clamp_inside; lra.
Qed.

Lemma gnss_confidence_monotone_extremes_witness :
  compute_gnss_confidence 2 1 0.5 <= compute_gnss_confidence 1 0.5 0.9
  /\ compute_gnss_confidence 4 3 0 == 0
  /\ compute_gnss_confidence 0 0 1 == 100.
Proof.
  destruct gnss_confidence_monotone_extremes as (Hmono & Hzero & Hfull).
  split; [apply Hmono; discriminate|].
  split; [apply Hzero; discriminate | apply Hfull; discriminate].
Defined.

(** X5.  The overall risk never falls when a component risk grows or the
    GNSS confidence drops.  For component risks that are not negative and a
    confidence of at most 100 it is the weighted blend
    [0.38 r + 0.34 s + 0.28 o + 0.25 (100 - g)] capped at 100: the lower
    clamp never acts. *)
Theorem overall_risk_blend :
  (forall r r' s s' o o' g g' : Q,
      r <= r' -> s <= s' -> o <= o' -> g' <= g ->
      compute_overall_risk r s o g <= compute_overall_risk r' s' o' g')
  /\ (forall r s o g : Q,
         0 <= r -> 0 <= s -> 0 <= o -> g <= 100 ->
         let blend := 0.38 * r + 0.34 * s + 0.28 * o + 0.25 * (100 - g) in
         (blend <= 100 -> compute_overall_risk r s o g == blend)
         /\ (100 <= blend -> compute_overall_risk r s o g == 100)).
Proof.
  split.
  - intros r r' s s' o o' g g' Hr Hs Ho Hg. unfold compute_overall_risk.
    apply clamp_monotone. lra.
  - intros r s o g Hr Hs Ho Hg blend. subst blend. unfold compute_overall_risk.
    split; intro Hb.
    + rewrite clamp_inside; lra.
    + rewrite clamp_high; lra.
Qed.

Lemma overall_risk_blend_witness :
  compute_overall_risk 10 20 0 90 <= compute_overall_risk 40 20 35 60
  /\ compute_overall_risk 100 100 85 0 == 100.
Proof.
  destruct overall_risk_blend as (Hmono & Hblend).
  split; [apply Hmono; discriminate|].
  destruct (Hblend 100 100 85 0) as (_ & Hcap); try discriminate.
  apply Hcap. vm_compute. discriminate.
Defined.

(** X6.  The label is always one of the four states; it is STABLE exactly
    below 25 and it is HIGH or CRITICAL, the condition under which the
    simulation step logs an alert, exactly from 50 on. *)
Theorem classify_state_alert_from_50 :
  forall r : Q,
    (classify_state r = "STABLE" \/ classify_state r = "ELEVATED"
     \/ classify_state r = "HIGH" \/ classify_state r = "CRITICAL")
    /\ (classify_state r = "STABLE" <-> r < 25)
    /\ (String.eqb (classify_state r) "HIGH"
        || String.eqb (classify_state r) "CRITICAL" = true <-> 50 <= r).
Proof.
  intro r. unfold classify_state.
  destruct (Qltb_spec r 25); destruct (Qltb_spec r 50); destruct (Qltb_spec r 75);
    cbn [String.eqb Ascii.eqb Bool.eqb orb];
    (split; [auto 6|]); split; split; intro Hx;
    try reflexivity; try discriminate; try lra; exfalso; lra.
Qed.

Lemma classify_state_alert_from_50_witness :
  String.eqb (classify_state 60) "HIGH" || String.eqb (classify_state 60) "CRITICAL"
  = true.
Proof.
  apply (proj2 (proj2 (classify_state_alert_from_50 60))). discriminate.
Defined.

Lemma Qdiv_antitone (d v v' : Q) : 0 <= d -> 0 < v -> v <= v' -> d / v' <= d / v.
Proof.
  intros Hd Hv Hvv. apply Qle_shift_div_r; [lra|].
  assert (Hq : 0 <= d / v) by (apply Qle_shift_div_l; lra).
  assert (Hm : (d / v) * v == d) by (rewrite Qmult_comm; apply Qmult_div_r; lra).
  set (q := d / v) in *. clearbody q. nra.
Qed.

(** X7.  The obstacle risk takes one of the five values 0, 10, 35, 60, 85.
    At a given speed a nearer obstacle never scores lower than a farther
    one, and for an obstacle ahead (distance not negative) a higher speed
    never scores lower. *)
Theorem obstacle_risk_steps :
  (forall d s : Q,
      compute_obstacle_risk d s == 0 \/ compute_obstacle_risk d s == 10
      \/ compute_obstacle_risk d s == 35 \/ compute_obstacle_risk d s == 60
      \/ compute_obstacle_risk d s == 85)
  /\ (forall d d' s : Q,
         d <= d' -> compute_obstacle_risk d' s <= compute_obstacle_risk d s)
  /\ (forall d s s' : Q,
         0 <= d -> s <= s' -> compute_obstacle_risk d s <= compute_obstacle_risk d s').
Proof.
  split; [|split].
  - intros d s. unfold compute_obstacle_risk.
    destruct (Qle_bool 80 d || Qeq_bool d 999); [left; reflexivity|].
    repeat match goal with
           | |- context [Qltb ?a ?b] => destruct (Qltb a b)
           end; cbv zeta;
      first [ left; reflexivity
            | right; left; reflexivity
            | right; right; left; reflexivity
            | right; right; right; left; reflexivity
            | right; right; right; right; reflexivity ].
  - intros d d' s Hd. unfold compute_obstacle_risk.
    destruct (Qle_bool 80 d') eqn:E80'.
    { cbn [orb]. destruct (Qle_bool 80 d || Qeq_bool d 999); [discriminate|].
      repeat match goal with
             | |- context [Qltb ?a ?b] => destruct (Qltb a b)
             end; discriminate. }
    destruct (Qle_bool 80 d) eqn:E80.
    { apply Qle_bool_iff in E80. exfalso.
      assert (H80 : 80 <= d') by lra. apply Qle_bool_iff in H80. congruence. }
    assert (Hd' : d' < 80).
    { apply Qnot_le_lt. intro Hx. apply Qle_bool_iff in Hx. congruence. }
    assert (H999 : Qeq_bool d 999 = false /\ Qeq_bool d' 999 = false).
    { split; apply not_true_is_false; intro Hx; apply Qeq_bool_iff in Hx; lra. }
    destruct H999 as [-> ->]. cbn [orb].
    set (v := if Qltb (s / 3.6) 0.1 then 0.1 else s / 3.6).
    assert (Hv : 0 < v) by (unfold v; destruct (Qltb_spec (s / 3.6) 0.1); lra).
    assert (Httc : d / v <= d' / v) by now apply Qdiv_monotone.
    set (t := d / v) in *. set (t' := d' / v) in *. clearbody t t'.
    destruct (Qltb_spec 40 t); destruct (Qltb_spec 20 t); destruct (Qltb_spec 10 t);
      destruct (Qltb_spec 40 t'); destruct (Qltb_spec 20 t'); destruct (Qltb_spec 10 t');
      first [discriminate | exfalso; lra].
  - intros d s s' Hd Hs. unfold compute_obstacle_risk.
    destruct (Qle_bool 80 d || Qeq_bool d 999); [discriminate|].
    set (v := if Qltb (s / 3.6) 0.1 then 0.1 else s / 3.6).
    set (v' := if Qltb (s' / 3.6) 0.1 then 0.1 else s' / 3.6).
    assert (Hdiv : s / 3.6 <= s' / 3.6) by (apply Qdiv_monotone; [reflexivity | exact Hs]).
    assert (Hv : 0 < v) by (unfold v; destruct (Qltb_spec (s / 3.6) 0.1); lra).
    assert (Hvv : v <= v').
    { unfold v, v'. destruct (Qltb_spec (s / 3.6) 0.1);
        destruct (Qltb_spec (s' / 3.6) 0.1); lra. }
    assert (Httc : d / v' <= d / v) by now apply Qdiv_antitone.
    set (t := d / v) in *. set (t' := d / v') in *. clearbody t t'.
    destruct (Qltb_spec 40 t); destruct (Qltb_spec 20 t); destruct (Qltb_spec 10 t);
      destruct (Qltb_spec 40 t'); destruct (Qltb_spec 20 t'); destruct (Qltb_spec 10 t');
      first [discriminate | exfalso; lra].
Qed.

Lemma obstacle_risk_steps_witness :
  compute_obstacle_risk 60 5 <= compute_obstacle_risk 12 5
  /\ compute_obstacle_risk 12 2 <= compute_obstacle_risk 12 9.
Proof.
  destruct obstacle_risk_steps as (_ & Hnear & Hfast).
  split; [apply Hnear; discriminate | apply Hfast; discriminate].
Defined.

(** ** Telemetry generator *)

Lemma evolve_coherent (G : Type) (B : BitGenerator G)
    (tk : Z) (base_ts : Q) (g : G) (w : Working) :
  let r := evolve tk base_ts g w in
  rollover_risk r = compute_rollover_risk (grade_pct r) (roll_deg r) (speed_kph r)
  /\ slip_risk r = compute_slip_risk (grade_pct r) (moisture_index r)
                     (ground_firmness r) (speed_kph r)
  /\ obstacle_risk r = compute_obstacle_risk (obstacle_distance_m r) (speed_kph r)
  /\ gnss_confidence r = compute_gnss_confidence (gnss_hdop r) (gnss_jitter_m r)
                           (visibility r)
  /\ overall_risk r = compute_overall_risk (rollover_risk r) (slip_risk r)
                        (obstacle_risk r) (gnss_confidence r)
  /\ gear r = py_int (clamp (inject_Z (py_round (1 + speed_kph r / 3.0))) 1 4).
Proof.
  cbv zeta. unfold evolve. name_draws.
  cbn [rollover_risk slip_risk obstacle_risk gnss_confidence overall_risk gear
       grade_pct roll_deg speed_kph moisture_index ground_firmness
       obstacle_distance_m gnss_hdop gnss_jitter_m visibility].
  repeat split.
Qed.

(** X8.  A generated row is self-consistent: its tick is the session tick
    plus one, its timestamp the clock reading, and each of its five risk
    fields is the risk function applied to the row's own telemetry
    fields. *)
Theorem generate_tick_row_consistent :
  forall (G : Type) (B : BitGenerator G) (ss_tick_now : Z) (base_ts : Q)
         (prev : option TelemetryRow),
    let r := generate_tick ss_tick_now base_ts prev in
    tick r = (ss_tick_now + 1)%Z
    /\ ts r = base_ts
    /\ rollover_risk r = compute_rollover_risk (grade_pct r) (roll_deg r) (speed_kph r)
    /\ slip_risk r = compute_slip_risk (grade_pct r) (moisture_index r)
                       (ground_firmness r) (speed_kph r)
    /\ obstacle_risk r = compute_obstacle_risk (obstacle_distance_m r) (speed_kph r)
    /\ gnss_confidence r = compute_gnss_confidence (gnss_hdop r) (gnss_jitter_m r)
                             (visibility r)
    /\ overall_risk r = compute_overall_risk (rollover_risk r) (slip_risk r)
                          (obstacle_risk r) (gnss_confidence r).
Proof.
  intros G B tk base_ts prev r. subst r. unfold generate_tick.
  destruct (evolve_tick_ts G B (tk + 1) base_ts (default_rng (seed_of base_ts))
              (initial_working prev)) as [Htick Hts].
  destruct (evolve_coherent G B (tk + 1) base_ts (default_rng (seed_of base_ts))
              (initial_working prev)) as (H1 & H2 & H3 & H4 & H5 & _).
  repeat split; assumption.
Qed.

Lemma evolve_fuel_range (G : Type) (B : BitGenerator G)
    (tk : Z) (base_ts : Q) (g : G) (w : Working) :
  5 <= fuel_pct (evolve tk base_ts g w) /\ fuel_pct (evolve tk base_ts g w) <= 100.
Proof.
  rewrite evolve_fuel. apply clamp_within; lra.
Qed.

(** X9.  From a previous row whose fuel is within 5 to 100 %, a tick never
    adds fuel: the new level is the old one less a burn of 0.03 to 0.15
    points, or the floor 5 when that would go below it.  The shift clock
    advances by one minute, 1/60 h. *)
Theorem fuel_burns_down_to_floor :
  forall (G : Type) (B : BitGenerator G) (ss_tick_now : Z) (base_ts : Q)
         (prev : TelemetryRow),
    5 <= fuel_pct prev -> fuel_pct prev <= 100 ->
    let r := generate_tick ss_tick_now base_ts (Some prev) in
    fuel_pct r <= fuel_pct prev
    /\ fuel_pct prev - 0.15 <= fuel_pct r
    /\ (fuel_pct r <= fuel_pct prev - 0.03 \/ fuel_pct r == 5)
    /\ fuel_pct r == py_max 5 (fuel_pct prev - (0.03 + 0.01 * speed_kph r))
    /\ shift_hours r == shift_hours prev + 1 / 60.
Proof.
  intros G B tk base_ts prev Hlo Hhi r. subst r. unfold generate_tick.
  rewrite evolve_fuel, evolve_shift_hours.
  cbn [initial_working from_prev w_fuel_pct w_shift_hours].
  pose proof (evolve_speed_range G B (tk + 1) base_ts (default_rng (seed_of base_ts))
                (from_prev prev)) as [Hs0 Hs12].
  set (s := speed_kph _) in *. clearbody s.
  set (f := fuel_pct prev) in *. clearbody f.
  assert (Hshift : shift_hours prev + 1.0 / 60.0 == shift_hours prev + 1 / 60).
  { apply Qplus_comp; reflexivity. }
  assert (Hmin : py_min 100.0 (f - (0.03 + s * 0.01)) = f - (0.03 + s * 0.01)).
  { unfold py_min. destruct (Qltb_spec (f - (0.03 + s * 0.01)) 100.0);
      [reflexivity | lra]. }
  unfold clamp. rewrite Hmin. unfold py_max.
  destruct (Qltb_spec 5.0 (f - (0.03 + s * 0.01)));
    destruct (Qltb_spec 5 (f - (0.03 + 0.01 * s)));
    (split; [|split; [|split; [|split; [|exact Hshift]]]]);
    try lra; try (left; lra); try (right; lra).
Qed.

Lemma fuel_burns_down_to_floor_witness :
  fuel_pct (generate_tick (G := Z) 7 100 (Some risky_row)) <= fuel_pct risky_row.
Proof.
  apply (fuel_burns_down_to_floor Z LcgGenerator 7 100 risky_row); discriminate.
Defined.

(** X11.  The step reads neither the gear, the engine rpm, the tick, the
    timestamp, the label nor the risks of the previous row: two previous
    rows that agree on the remaining fields give the same new row, so gear
    and rpm carry no state from tick to tick. *)
Theorem generate_tick_ignores_derived_fields :
  forall (G : Type) (B : BitGenerator G) (ss_tick_now : Z) (base_ts : Q)
         (p1 p2 : TelemetryRow),
    same_inputs p1 p2 ->
    generate_tick ss_tick_now base_ts (Some p1)
    = generate_tick ss_tick_now base_ts (Some p2).
Proof.
  intros G B tk base_ts p1 p2 Hsame. unfold generate_tick.
  cbn [initial_working]. unfold same_inputs in Hsame.
  destruct p1, p2. cbn in Hsame.
  destruct Hsame as (-> & -> & -> & -> & -> & -> & -> & -> & -> & -> & -> & -> & ->
                     & -> & ->).
  unfold evolve, from_prev.
  cbn [w_speed_kph w_grade_pct w_roll_deg w_pitch_deg w_blade_load_pct w_fuel_pct
       w_ground_firmness w_moisture_index w_visibility w_gnss_hdop w_gnss_jitter_m
       w_obstacle_distance_m w_obstacle_bearing_deg w_shift_hours w_micro_corr
       speed_kph grade_pct roll_deg pitch_deg blade_load_pct fuel_pct
       ground_firmness moisture_index visibility gnss_hdop gnss_jitter_m
       obstacle_distance_m obstacle_bearing_deg shift_hours
       micro_corrections_per_min].
  reflexivity.
Qed.

Lemma generate_tick_ignores_derived_fields_witness :
  generate_tick (G := Z) 7 100 (Some risky_row)
  = generate_tick (G := Z) 7 100 (Some risky_row_relabelled).
Proof.
  apply (generate_tick_ignores_derived_fields Z LcgGenerator).
  repeat split.
Defined.

Lemma Qfloor_unique (x : Q) (n : Z) :
  inject_Z n <= x -> x < inject_Z n + 1 -> Qfloor x = n.
Proof.
  intros Hlo Hhi.
  pose proof (Qfloor_le x) as Hf1. pose proof (Qlt_floor x) as Hf2.
  rewrite inject_Z_plus in Hf2. change (inject_Z 1) with 1 in Hf2.
  assert (H1 : (Qfloor x < n + 1)%Z).
  { rewrite Zlt_Qlt, inject_Z_plus. change (inject_Z 1) with 1. lra. }
  assert (H2 : (n < Qfloor x + 1)%Z).
  { rewrite Zlt_Qlt, inject_Z_plus. change (inject_Z 1) with 1. lra. }
  lia.
Qed.

Lemma py_round_between (x : Q) (n : Z) :
  inject_Z n - (1 # 2) < x -> x < inject_Z n + (1 # 2) -> py_round x = n.
Proof.
  intros Hlo Hhi. unfold py_round.
  destruct (Qlt_le_dec x (inject_Z n)) as [Hbelow | Habove].
  - assert (Hinj : inject_Z (n - 1) == inject_Z n - 1).
    { unfold Z.sub. rewrite inject_Z_plus, inject_Z_opp. reflexivity. }
    assert (Hf : Qfloor x = (n - 1)%Z) by (apply Qfloor_unique; lra).
    rewrite Hf.
    destruct (Qltb_spec (x - inject_Z (n - 1)) (1 # 2)); [exfalso; lra|].
    destruct (Qltb_spec (1 # 2) (x - inject_Z (n - 1))); [lia | exfalso; lra].
  - assert (Hf : Qfloor x = n) by (apply Qfloor_unique; lra).
    rewrite Hf. destruct (Qltb_spec (x - inject_Z n) (1 # 2)); [reflexivity | exfalso; lra].
Qed.

Lemma py_round_tie (x : Q) (n : Z) :
  x == inject_Z n + (1 # 2) -> py_round x = if Z.even n then n else (n + 1)%Z.
Proof.
  intro Hx. unfold py_round.
  assert (Hf : Qfloor x = n) by (apply Qfloor_unique; lra).
  rewrite Hf.
  destruct (Qltb_spec (x - inject_Z n) (1 # 2)); [exfalso; lra|].
  destruct (Qltb_spec (1 # 2) (x - inject_Z n)); [exfalso; lra | reflexivity].
Qed.

(** The gear formula of line 290 as a function of the speed. *)
Lemma gear_of_speed (s : Q) :
  0 <= s -> s <= 12 ->
  let gear := py_int (clamp (inject_Z (py_round (1 + s / 3.0))) 1 4) in
  (s < 1.5 -> gear = 1%Z)
  /\ (1.5 <= s -> s <= 4.5 -> gear = 2%Z)
  /\ (4.5 < s -> s < 7.5 -> gear = 3%Z)
  /\ (7.5 <= s -> gear = 4%Z).
Proof.
  intros Hs0 Hs12. cbv zeta.
  assert (Hq : 3.0 * (s / 3.0) == s) by (apply Qmult_div_r; discriminate).
  set (q := s / 3.0) in *. clearbody q.
  split; [|split; [|split]].
  - intro Hs. rewrite (py_round_between (1 + q) 1); [reflexivity | |];
      change (inject_Z 1) with 1; lra.
  - intros Hlo Hhi.
    destruct (Qlt_le_dec s 4.5) as [Hlt | Hge].
    + destruct (Qlt_le_dec 1.5 s) as [Hgt | Hle].
      * rewrite (py_round_between (1 + q) 2); [reflexivity | |];
          change (inject_Z 2) with 2; lra.
      * rewrite (py_round_tie (1 + q) 1); [reflexivity|].
        change (inject_Z 1) with 1. lra.
    + rewrite (py_round_tie (1 + q) 2); [reflexivity|].
      change (inject_Z 2) with 2. lra.
  - intros Hlo Hhi. rewrite (py_round_between (1 + q) 3); [reflexivity | |];
      change (inject_Z 3) with 3; lra.
  - intro Hlo.
    destruct (Qlt_le_dec 7.5 s) as [Hgt | Hle].
    + destruct (Qlt_le_dec s 10.5) as [Hlt | Hge].
      * rewrite (py_round_between (1 + q) 4); [reflexivity | |];
          change (inject_Z 4) with 4; lra.
      * destruct (Qlt_le_dec 10.5 s) as [Hgt' | Hle'].
        -- rewrite (py_round_between (1 + q) 5); [reflexivity | |];
             change (inject_Z 5) with 5; lra.
        -- rewrite (py_round_tie (1 + q) 4); [reflexivity|].
           change (inject_Z 4) with 4. lra.
    + rewrite (py_round_tie (1 + q) 3); [reflexivity|].
      change (inject_Z 3) with 3. lra.
Qed.

(** X10.  The gear of a generated row follows its speed in four bands:
    first gear up to 1.49 km/h, second from 1.5 to 4.5, third from 4.51 to
    7.49, fourth from 7.5 on, the speeds 1.5, 4.5 and 7.5 falling as
    rounding to the even integer decides.  Nothing is said of the speeds
    within 0.01 below 1.5, above 4.5 and below 7.5, where the rounding of
    [1 + speed / 3.0] in binary64 decides between the two neighbours. *)
Theorem gear_follows_speed :
  forall (G : Type) (B : BitGenerator G) (ss_tick_now : Z) (base_ts : Q)
         (prev : option TelemetryRow),
    let r := generate_tick ss_tick_now base_ts prev in
    (speed_kph r <= 1.49 -> gear r = 1%Z)
    /\ (1.5 <= speed_kph r -> speed_kph r <= 4.5 -> gear r = 2%Z)
    /\ (4.51 <= speed_kph r -> speed_kph r <= 7.49 -> gear r = 3%Z)
    /\ (7.5 <= speed_kph r -> gear r = 4%Z).
Proof.
  intros G B tk base_ts prev r. subst r. unfold generate_tick.
  destruct (evolve_coherent G B (tk + 1) base_ts (default_rng (seed_of base_ts))
              (initial_working prev)) as (_ & _ & _ & _ & _ & Hgear).
  destruct (evolve_speed_range G B (tk + 1) base_ts (default_rng (seed_of base_ts))
              (initial_working prev)) as [Hs0 Hs12].
  rewrite Hgear.
  destruct (gear_of_speed _ Hs0 Hs12) as (H1 & H2 & H3 & H4).
  split; [|split; [|split]].
  - intro Hs. apply H1. lra.
  - exact H2.
  - intros Hlo Hhi. apply H3; lra.
  - exact H4.
Qed.

Lemma gear_follows_speed_witness :
  gear (generate_tick (G := Z) 0 0 None) = 1%Z.
Proof.
  apply (proj1 (gear_follows_speed Z LcgGenerator 0 0 None)).
  vm_compute. discriminate.
Defined.

(** ** Proposal engine *)

Lemma mem_triggers (r : TelemetryRow) :
  mem "high_overall_risk" (triggers_of r) = Qltb 65 (overall_risk r)
  /\ mem "rollover_exposure" (triggers_of r) = Qltb 70 (rollover_risk r)
  /\ mem "traction_margin_low" (triggers_of r) = Qltb 70 (slip_risk r)
  /\ mem "obstacle_close" (triggers_of r) = Qltb 60 (obstacle_risk r)
  /\ mem "low_gnss_conf" (triggers_of r) = Qltb (gnss_confidence r) 55.
Proof.
  unfold triggers_of.
  destruct (Qltb 65 (overall_risk r)); destruct (Qltb 70 (rollover_risk r));
    destruct (Qltb 70 (slip_risk r)); destruct (Qltb 60 (obstacle_risk r));
    destruct (Qltb (gnss_confidence r) 55); repeat split.
Qed.

Lemma triggers_length (r : TelemetryRow) :
  List.length (triggers_of r)
  = ((if Qltb 65 (overall_risk r) then 1 else 0)
     + (if Qltb 70 (rollover_risk r) then 1 else 0)
     + (if Qltb 70 (slip_risk r) then 1 else 0)
     + (if Qltb 60 (obstacle_risk r) then 1 else 0)
     + (if Qltb (gnss_confidence r) 55 then 1 else 0))%nat.
Proof.
  unfold triggers_of.
  destruct (Qltb 65 (overall_risk r)); destruct (Qltb 70 (rollover_risk r));
    destruct (Qltb 70 (slip_risk r)); destruct (Qltb 60 (obstacle_risk r));
    destruct (Qltb (gnss_confidence r) 55); reflexivity.
Qed.

(** X12.  The title of a proposal is picked by a fixed priority over the
    thresholds the row crosses: an obstacle risk above 60 decides it,
    otherwise a rollover risk above 70, otherwise a slip risk above 70,
    otherwise a GNSS confidence below 55; the generic title is left for rows
    that cross none of these four. *)
Theorem title_priority :
  forall r : TelemetryRow,
    let t := title_of (triggers_of r) in
    (60 < obstacle_risk r -> t = "Pause travel — obstacle within unsafe margin")
    /\ (obstacle_risk r <= 60 -> 70 < rollover_risk r ->
        t = "Reduce cross-slope exposure and slow to crawl")
    /\ (obstacle_risk r <= 60 -> rollover_risk r <= 70 -> 70 < slip_risk r ->
        t = "Back out, re-cut access path, and reassess ground")
    /\ (obstacle_risk r <= 60 -> rollover_risk r <= 70 -> slip_risk r <= 70 ->
        gnss_confidence r < 55 ->
        t = "Switch to local references — GNSS degraded")
    /\ (obstacle_risk r <= 60 -> rollover_risk r <= 70 -> slip_risk r <= 70 ->
        55 <= gnss_confidence r ->
        t = "Hold profile and reduce speed until risk stabilizes").
Proof.
  intros r t. subst t. unfold title_of.
  destruct (mem_triggers r) as (_ & -> & -> & -> & ->).
  destruct (Qltb_spec 60 (obstacle_risk r)); destruct (Qltb_spec 70 (rollover_risk r));
    destruct (Qltb_spec 70 (slip_risk r)); destruct (Qltb_spec (gnss_confidence r) 55);
    repeat split; intros; try reflexivity; exfalso; lra.
Qed.

Lemma title_priority_witness :
  title_of (triggers_of risky_row)
  = "Hold profile and reduce speed until risk stabilizes".
Proof.
  apply (proj2 (proj2 (proj2 (proj2 (title_priority risky_row))))); discriminate.
Defined.

(** X13.  [maybe_generate_proposal] leaves the session untouched for a row
    that crosses no threshold.  When fewer than 4 proposals are PENDING and
    the row crosses one, it appends a single PENDING proposal stamped with
    the next id, the creation time and the row's snapshot, advances the id
    counter by one and appends a single audit entry of kind proposal that
    carries the rationale; tick, history, run flag and update time stay. *)
Theorem maybe_generate_proposal_effects :
  forall (tc tl : Q) (latest : TelemetryRow) (ss : SessionState),
    (overall_risk latest <= 65 -> rollover_risk latest <= 70 ->
     slip_risk latest <= 70 -> obstacle_risk latest <= 60 ->
     55 <= gnss_confidence latest ->
     maybe_generate_proposal tc tl latest ss = ss)
    /\ ((pending_count ss < 4)%nat -> triggers_of latest <> [] ->
        let ss' := maybe_generate_proposal tc tl latest ss in
        let ttl := title_of (triggers_of latest) in
        let why := join " · " (bits_of (triggers_of latest) latest) in
        ss_proposals ss'
        = ss_proposals ss
          ++ [mkProposal (ss_next_proposal_id ss) tc ttl why "PENDING"
                (snapshot_of latest)]
        /\ ss_next_proposal_id ss' = (ss_next_proposal_id ss + 1)%Z
        /\ ss_audit ss'
           = py_last 150
               (ss_audit ss
                ++ [mkAuditEntry tl "proposal"
                      ("Proposal #" ++ string_of_Z (ss_next_proposal_id ss) ++ ": "
                       ++ ttl)%string
                      [("rationale", PStr why)]])
        /\ ss_tick ss' = ss_tick ss
        /\ ss_history ss' = ss_history ss
        /\ ss_running ss' = ss_running ss
        /\ ss_last_update ss' = ss_last_update ss).
Proof.
  intros tc tl latest ss. split.
  - intros H1 H2 H3 H4 H5. unfold maybe_generate_proposal.
    destruct (4 <=? List.length (filter is_pending (ss_proposals ss)))%nat;
      [reflexivity|].
    assert (Hnone : triggers_of latest = []).
    { unfold triggers_of.
      destruct (Qltb_spec 65 (overall_risk latest)); [exfalso; lra|].
      destruct (Qltb_spec 70 (rollover_risk latest)); [exfalso; lra|].
      destruct (Qltb_spec 70 (slip_risk latest)); [exfalso; lra|].
      destruct (Qltb_spec 60 (obstacle_risk latest)); [exfalso; lra|].
      destruct (Qltb_spec (gnss_confidence latest) 55); [exfalso; lra|].
      reflexivity. }
    rewrite Hnone. reflexivity.
  - intros Hroom Htrig. cbv zeta. unfold maybe_generate_proposal.
    unfold pending_count in Hroom.
    destruct (Nat.leb_spec 4 (List.length (filter is_pending (ss_proposals ss))));
      [lia|].
    destruct (triggers_of latest) as [| t rest] eqn:Etrig; [contradiction|].
    repeat split.
Qed.

Lemma maybe_generate_proposal_effects_witness :
  List.length (ss_proposals
                 (maybe_generate_proposal 300 301 risky_row one_approved)) = 2%nat
  /\ ss_next_proposal_id (maybe_generate_proposal 300 301 risky_row one_approved)
     = 3%Z.
Proof.
  destruct (maybe_generate_proposal_effects 300 301 risky_row one_approved)
    as [_ Hnew].
  destruct Hnew as (Hps & Hid & _).
  - vm_compute. lia.
  - discriminate.
  - split; [rewrite Hps; reflexivity | rewrite Hid; reflexivity].
Defined.

(** X14.  For a row that the generator produced, the rationale of a
    proposal has exactly one clause for each threshold the row crosses: the
    obstacle clause is never dropped, because an obstacle risk above 60
    comes with a distance that is not the sentinel 999. *)
Theorem rationale_has_a_clause_per_trigger :
  forall (G : Type) (B : BitGenerator G) (ss_tick_now : Z) (base_ts : Q)
         (prev : option TelemetryRow),
    let r := generate_tick ss_tick_now base_ts prev in
    List.length (bits_of (triggers_of r) r) = List.length (triggers_of r)
    /\ (60 < obstacle_risk r ->
        obstacle_distance_m r < 80 /\ ~ obstacle_distance_m r == 999).
Proof.
  intros G B tk base_ts prev r.
  assert (Hobst : obstacle_risk r
                  = compute_obstacle_risk (obstacle_distance_m r) (speed_kph r)).
  { subst r. unfold generate_tick.
    apply (evolve_coherent G B (tk + 1) base_ts (default_rng (seed_of base_ts))
             (initial_working prev)). }
  clearbody r.
  assert (Hreal : 60 < obstacle_risk r ->
                  obstacle_distance_m r < 80 /\ ~ obstacle_distance_m r == 999).
  { rewrite Hobst. unfold compute_obstacle_risk. intro Hrisk.
    destruct (Qle_bool 80 (obstacle_distance_m r)) eqn:E80;
      [exfalso; revert Hrisk; discriminate|].
    destruct (Qeq_bool (obstacle_distance_m r) 999) eqn:E999;
      [exfalso; revert Hrisk; discriminate|].
    split.
    - apply Qnot_le_lt. intro Hx. apply Qle_bool_iff in Hx. congruence.
    - intro Hx. apply Qeq_bool_iff in Hx. congruence. }
  split; [|exact Hreal].
  rewrite triggers_length. unfold bits_of.
  destruct (mem_triggers r) as (-> & -> & -> & -> & ->).
  destruct (Qltb_spec 60 (obstacle_risk r)) as [Hclose | Hfar].
  - destruct (Hreal Hclose) as [_ Hne].
    assert (E999 : Qeq_bool (obstacle_distance_m r) 999 = false).
    { apply not_true_is_false. intro Hx. apply Qeq_bool_iff in Hx. contradiction. }
    rewrite E999. cbn [andb negb].
    destruct (Qltb 65 (overall_risk r)); destruct (Qltb 70 (rollover_risk r));
      destruct (Qltb 70 (slip_risk r)); destruct (Qltb (gnss_confidence r) 55);
      reflexivity.
  - cbn [andb].
    destruct (Qltb 65 (overall_risk r)); destruct (Qltb 70 (rollover_risk r));
      destruct (Qltb 70 (slip_risk r)); destruct (Qltb (gnss_confidence r) 55);
      reflexivity.
Qed.

Lemma rationale_has_a_clause_per_trigger_witness :
  List.length (bits_of (triggers_of (generate_tick (G := Z) 0 0 None))
                 (generate_tick (G := Z) 0 0 None))
  = List.length (triggers_of (generate_tick (G := Z) 0 0 None)).
Proof.
  apply (proj1 (rationale_has_a_clause_per_trigger Z LcgGenerator 0 0 None)).
Defined.

(** ** Simulation step and controls *)

Lemma maybe_generate_proposal_cases (tc tl : Q) (latest : TelemetryRow)
    (ss : SessionState) :
  maybe_generate_proposal tc tl latest ss = ss
  \/ (exists p e,
         (pending_count ss < 4)%nat
         /\ status p = "PENDING"
         /\ proposal_id p = ss_next_proposal_id ss
         /\ kind e = "proposal"
         /\ maybe_generate_proposal tc tl latest ss
            = {| ss_tick := ss_tick ss;
                 ss_running := ss_running ss;
                 ss_last_update := ss_last_update ss;
                 ss_history := ss_history ss;
                 ss_proposals := ss_proposals ss ++ [p];
                 ss_audit := py_last 150 (ss_audit ss ++ [e]);
                 ss_next_proposal_id := (ss_next_proposal_id ss + 1)%Z |}).
Proof.
  unfold maybe_generate_proposal, pending_count.
  destruct (Nat.leb_spec 4 (List.length (filter is_pending (ss_proposals ss))));
    [left; reflexivity|].
  destruct (triggers_of latest) as [| t rest]; [left; reflexivity|].
  right.
  exists (mkProposal (ss_next_proposal_id ss) tc (title_of (t :: rest))
            (join " · " (bits_of (t :: rest) latest)) "PENDING" (snapshot_of latest)).
  eexists (mkAuditEntry tl "proposal" _ _).
  split; [assumption|]. repeat split.
Qed.

(** The state of a due step before the proposal engine runs: tick, history
    and update time set, and the alert logged when the label calls for it. *)
Lemma simulation_step_unfold (G : Type) (B : BitGenerator G)
    (c : Clock) (ss : SessionState) :
  step_due c ss = true ->
  exists alerts,
    (alerts = []
     \/ exists e, alerts = [e] /\ kind e = "alert")
    /\ (alerts <> [] <->
        String.eqb (state (new_row c ss)) "HIGH"
        || String.eqb (state (new_row c ss)) "CRITICAL" = true)
    /\ simulation_step c ss
       = maybe_generate_proposal (t_created c) (t_proposal c) (new_row c ss)
           {| ss_tick := tick (new_row c ss);
              ss_running := ss_running ss;
              ss_last_update := t_update c;
              ss_history := py_last 600 (ss_history ss ++ [new_row c ss]);
              ss_proposals := ss_proposals ss;
              ss_audit := match alerts with
                          | [] => ss_audit ss
                          | _ => py_last 150 (ss_audit ss ++ alerts)
                          end;
              ss_next_proposal_id := ss_next_proposal_id ss |}.
Proof.
  intro Hdue. unfold simulation_step. unfold step_due in Hdue. rewrite Hdue.
  fold (new_row c ss).
  destruct (String.eqb (state (new_row c ss)) "HIGH"
            || String.eqb (state (new_row c ss)) "CRITICAL") eqn:Ealert.
  - exists [mkAuditEntry (t_alert c) "alert"
              (state (new_row c ss) ++ " risk at tick "
               ++ string_of_Z (tick (new_row c ss)))%string
              [("overall_risk", PFloat (overall_risk (new_row c ss)))]].
    split; [right; eexists; split; reflexivity|].
    split; [split; [reflexivity | discriminate]|].
    reflexivity.
  - exists []. split; [left; reflexivity|].
    split; [split; [contradiction | discriminate]|].
    reflexivity.
Qed.

Lemma new_row_consistent (G : Type) (B : BitGenerator G) (c : Clock)
    (ss : SessionState) :
  tick (new_row c ss) = (ss_tick ss + 1)%Z
  /\ state (new_row c ss) = classify_state (overall_risk (new_row c ss)).
Proof.
  unfold new_row, generate_tick. split; [apply evolve_tick_ts|].
  unfold evolve. name_draws. cbn [state overall_risk]. reflexivity.
Qed.

Lemma alert_label_iff (r : Q) :
  String.eqb (classify_state r) "HIGH" || String.eqb (classify_state r) "CRITICAL" = true
  <-> 50 <= r.
Proof.
  unfold classify_state.
  destruct (Qltb_spec r 25); destruct (Qltb_spec r 50); destruct (Qltb_spec r 75);
    cbn [String.eqb Ascii.eqb Bool.eqb orb]; split; intro Hx;
    try reflexivity; try discriminate; try lra; exfalso; lra.
Qed.

(** X15.  The simulation step does nothing unless the session is running
    and at least one second has passed since the last update.  When it is
    due it advances the tick by one, appends the new row to the history kept
    to its last 600, stamps the update time, keeps every proposal in place
    and adds at most one, and logs at most two entries, an alert first
    exactly when the new row's overall risk is 50 or more and a proposal
    entry exactly when a proposal was added. *)
Theorem simulation_step_effects :
  forall (G : Type) (B : BitGenerator G) (c : Clock) (ss : SessionState),
    (step_due c ss = false -> simulation_step c ss = ss)
    /\ (step_due c ss = true ->
        let r := new_row c ss in
        let ss' := simulation_step c ss in
        ss_tick ss' = (ss_tick ss + 1)%Z
        /\ ss_history ss' = py_last 600 (ss_history ss ++ [r])
        /\ ss_last_update ss' = t_update c
        /\ ss_running ss' = true
        /\ exists added logged,
            ss_proposals ss' = ss_proposals ss ++ added
            /\ (List.length added <= 1)%nat
            /\ ss_next_proposal_id ss'
               = (ss_next_proposal_id ss + Z.of_nat (List.length added))%Z
            /\ ss_audit ss' = match logged with
                              | [] => ss_audit ss
                              | _ => py_last 150 (ss_audit ss ++ logged)
                              end
            /\ map kind logged
               = ((if Qle_bool 50 (overall_risk r) then ["alert"] else [])
                  ++ (match added with [] => [] | _ => ["proposal"] end))%list).
Proof.
  intros G B c ss. split.
  - intro Hidle. unfold simulation_step. unfold step_due in Hidle.
    rewrite Hidle. reflexivity.
  - intros Hdue r ss'. subst r ss'.
    assert (Hrun : ss_running ss = true).
    { unfold step_due in Hdue. now apply andb_true_iff in Hdue. }
    destruct (simulation_step_unfold G B c ss Hdue) as (alerts & Hshape & Hwhen & ->).
    destruct (new_row_consistent G B c ss) as [Htick Hstate].
    rewrite Hstate, alert_label_iff in Hwhen.
    assert (Hkinds : map kind alerts
                     = if Qle_bool 50 (overall_risk (new_row c ss))
                       then ["alert"] else []).
    { destruct (Qle_bool 50 (overall_risk (new_row c ss))) eqn:E50.
      - apply Qle_bool_iff in E50. apply Hwhen in E50.
        destruct Hshape as [-> | (e & -> & He)]; [contradiction|].
        cbn [map]. now rewrite He.
      - destruct Hshape as [-> | (e & -> & He)]; [reflexivity|].
        assert (Hne : [e] <> []) by discriminate.
        apply Hwhen in Hne. apply Qle_bool_iff in Hne. congruence. }
    match goal with
    | |- context [maybe_generate_proposal ?a ?b ?row ?s] =>
      destruct (maybe_generate_proposal_cases a b row s)
        as [Hsame | (p & e & _ & _ & _ & He & Hnew)]
    end.
    + rewrite Hsame.
      cbn [ss_tick ss_history ss_last_update ss_running ss_proposals
           ss_next_proposal_id ss_audit].
      repeat (split; [first [assumption | reflexivity]|]).
      exists [], alerts. split; [|split; [|split; [|split]]].
      * now rewrite app_nil_r.
      * apply Nat.le_0_l.
      * cbn [List.length Z.of_nat]. now rewrite Z.add_0_r.
      * destruct alerts; reflexivity.
      * rewrite Hkinds, app_nil_r. reflexivity.
    + rewrite Hnew.
      cbn [ss_tick ss_history ss_last_update ss_running ss_proposals
           ss_next_proposal_id ss_audit].
      repeat (split; [first [assumption | reflexivity]|]).
      exists [p], (alerts ++ [e]). split; [|split; [|split; [|split]]].
      * reflexivity.
      * apply Nat.le_refl.
      * reflexivity.
      * destruct Hshape as [-> | (a & -> & _)]; cbn [app].
        -- reflexivity.
        -- rewrite py_last_app, <- app_assoc. reflexivity.
      * rewrite map_app, Hkinds. cbn [map]. now rewrite He.
Qed.

Lemma simulation_step_effects_witness :
  ss_tick (simulation_step (G := Z) (mkClock 1 1 1 1 1 1) started) = 1%Z
  /\ simulation_step (G := Z) (mkClock 1 1 1 1 1 1) (init_state 0) = init_state 0.
Proof.
  destruct (simulation_step_effects Z LcgGenerator (mkClock 1 1 1 1 1 1) started)
    as [_ Hdue].
  destruct (simulation_step_effects Z LcgGenerator (mkClock 1 1 1 1 1 1) (init_state 0))
    as [Hidle _].
  split.
  - destruct (Hdue eq_refl) as (Htick & _). exact Htick.
  - apply Hidle. reflexivity.
Defined.

(** X16.  A paused or freshly reset session does not tick, and a started
    one does not tick before a full second has passed since Start. *)
Theorem controls_gate_the_step :
  forall (G : Type) (B : BitGenerator G) (c : Clock),
    (forall t_logged ss,
        simulation_step c (pause_simulation t_logged ss) = pause_simulation t_logged ss)
    /\ (forall t_now t_logged,
           simulation_step c (reset_simulation t_now t_logged)
           = reset_simulation t_now t_logged)
    /\ (forall t_now t_logged ss,
           t_check c - t_now < 1 ->
           simulation_step c (start_simulation t_now t_logged ss)
           = start_simulation t_now t_logged ss)
    /\ (forall t_now t_logged ss,
           1 <= t_check c - t_now ->
           ss_tick (simulation_step c (start_simulation t_now t_logged ss))
           = (ss_tick ss + 1)%Z).
Proof.
  intros G B c. split; [|split; [|split]].
  - intros. reflexivity.
  - intros. reflexivity.
  - intros t_now t_logged ss Hearly. unfold simulation_step.
    cbn [start_simulation log_audit ss_running ss_last_update andb].
    destruct (Qle_bool DT_SECONDS (t_check c - t_now)) eqn:E; [|reflexivity].
    apply Qle_bool_iff in E. unfold DT_SECONDS in E. exfalso. lra.
  - intros t_now t_logged ss Hlate.
    destruct (simulation_step_effects G B c (start_simulation t_now t_logged ss))
      as [_ Hdue].
    destruct Hdue as (Htick & _); [|exact Htick].
    unfold step_due. cbn [start_simulation log_audit ss_running ss_last_update andb].
    apply Qle_bool_iff. unfold DT_SECONDS. lra.
Qed.

Lemma controls_gate_the_step_witness :
  simulation_step (G := Z) (mkClock (1 # 2) 1 1 1 1 1) started = started
  /\ ss_tick (simulation_step (G := Z) (mkClock 1 1 1 1 1 1) started) = 1%Z.
Proof.
  destruct (controls_gate_the_step Z LcgGenerator (mkClock (1 # 2) 1 1 1 1 1))
    as (_ & _ & Hearly & _).
  destruct (controls_gate_the_step Z LcgGenerator (mkClock 1 1 1 1 1 1))
    as (_ & _ & _ & Hlate).
  split.
  - apply Hearly. reflexivity.
  - apply (Hlate 0 0 (init_state 0)). discriminate.
Defined.

(** ** Sessions *)

Lemma press_decision_cases (G : Type) (B : BitGenerator G)
    (pid : Z) (d : Decision) (t : Q) (ss : SessionState) :
  run_action (PressDecision pid d t) ss = ss
  \/ exists i p,
      nth_error (ss_proposals ss) i = Some p
      /\ status p = "PENDING"
      /\ proposal_id p = pid
      /\ run_action (PressDecision pid d t) ss
         = {| ss_tick := ss_tick ss;
              ss_running := ss_running ss;
              ss_last_update := ss_last_update ss;
              ss_history := ss_history ss;
              ss_proposals :=
                update_at i (set_status (decision_status d)) (ss_proposals ss);
              ss_audit :=
                py_last 150
                  (ss_audit ss ++ [decision_entry t (decision_status d) p]);
              ss_next_proposal_id := ss_next_proposal_id ss |}.
Proof.
  cbn [run_action].
  destruct (find_proposal pid (ss_proposals ss)) as [i|] eqn:Hfind;
    [|left; reflexivity].
  destruct (find_proposal_some _ _ _ Hfind) as (p & Hnth & Hid).
  unfold decision_button. rewrite Hnth.
  destruct (String.eqb_spec (status p) "PENDING") as [Hpend | Hdone];
    cbn [negb andb]; [|left; reflexivity].
  right. exists i, p.
  rewrite (update_proposal_status_result _ _ _ _ _ Hnth).
  repeat split; assumption.
Qed.

(** Pressing a decision button is [decide], the flag dropped. *)
Lemma run_action_decide (G : Type) (B : BitGenerator G)
    (pid : Z) (d : Decision) (t : Q) (ss : SessionState) :
  run_action (PressDecision pid d t) ss = snd (decide pid (decision_status d) t ss).
Proof.
  cbn [run_action]. unfold decide, decision_button.
  destruct (find_proposal pid (ss_proposals ss)) as [i|]; [|reflexivity].
  destruct (nth_error (ss_proposals ss) i) as [p|] eqn:Hnth; [|reflexivity].
  destruct (String.eqb (status p) "PENDING"); cbn [negb andb]; [|reflexivity].
  rewrite (update_proposal_status_result _ _ _ _ _ Hnth). reflexivity.
Qed.

Lemma simulation_step_cases (G : Type) (B : BitGenerator G)
    (c : Clock) (ss : SessionState) :
  simulation_step c ss = ss
  \/ exists audit',
      (audit' = ss_audit ss \/ exists e, audit' = py_last 150 (ss_audit ss ++ [e]))
      /\ simulation_step c ss
         = maybe_generate_proposal (t_created c) (t_proposal c) (new_row c ss)
             {| ss_tick := (ss_tick ss + 1)%Z;
                ss_running := ss_running ss;
                ss_last_update := t_update c;
                ss_history := py_last 600 (ss_history ss ++ [new_row c ss]);
                ss_proposals := ss_proposals ss;
                ss_audit := audit';
                ss_next_proposal_id := ss_next_proposal_id ss |}.
Proof.
  destruct (step_due c ss) eqn:Hdue.
  - right. destruct (simulation_step_unfold G B c ss Hdue) as (alerts & Hshape & _ & ->).
    destruct (new_row_consistent G B c ss) as [-> _].
    destruct Hshape as [-> | (e & -> & _)]; eexists; (split; [|reflexivity]).
    + left. reflexivity.
    + right. eexists. reflexivity.
  - left. unfold simulation_step. unfold step_due in Hdue. now rewrite Hdue.
Qed.

Lemma in_py_last {A : Type} (x : A) (n : nat) (xs : list A) :
  In x (py_last n xs) -> In x xs.
Proof.
  unfold py_last. generalize (List.length xs - n)%nat. intro k. revert xs.
  induction k as [| k IH]; intros [| y ys] Hin; cbn in *; try assumption.
  right. now apply IH.
Qed.

Lemma last_shift {A : Type} (rest : list A) (a b : A) :
  last (b :: rest) a = last rest b.
Proof.
  revert a b. induction rest as [| c rest IH]; intros a b; [reflexivity|].
  change (last (b :: c :: rest) a) with (last (c :: rest) a).
  now rewrite (IH a c), (IH b c).
Qed.

Lemma last_row_in (h : list TelemetryRow) (r : TelemetryRow) :
  last_row h = Some r -> In r h.
Proof.
  destruct h as [| a rest]; cbn [last_row]; [discriminate|].
  intro Hlast. injection Hlast as <-. revert a.
  induction rest as [| b rest IH]; intro a; [left; reflexivity|].
  rewrite last_shift. right. apply IH.
Qed.

(** Take a step of the session apart into the cases of its action. *)
Ltac session_cases G B a ss :=
  destruct a as [t_now t_logged | t_logged | t_now t_logged | c | pid d t_logged];
  [ | | |
    destruct (simulation_step_cases G B c ss) as [Hidle | (audit' & Haudit & Hstep)];
    [ cbn [run_action]; rewrite Hidle
    | cbn [run_action]; rewrite Hstep;
      match goal with
      | |- context [maybe_generate_proposal ?x ?y ?row ?s] =>
        destruct (maybe_generate_proposal_cases x y row s)
          as [Hquiet | (p & e & Hroom & Hstatus & Hid & Hkind & Hraised)];
        [rewrite Hquiet | rewrite Hraised]
      end ]
  | destruct (press_decision_cases G B pid d t_logged ss)
      as [Hnone | (i & p & Hnth & Hpend & Hid & Hdone)];
    [rewrite Hnone | rewrite Hdone] ].

(** X17.  In every state a session can reach, the three retention caps
    hold: at most 150 audit entries, at most 600 history rows and at most 4
    PENDING proposals. *)
Theorem reachable_caps :
  forall (G : Type) (B : BitGenerator G) (ss : SessionState),
    reachable ss ->
    (List.length (ss_audit ss) <= 150)%nat
    /\ (List.length (ss_history ss) <= 600)%nat
    /\ (pending_count ss <= 4)%nat.
Proof.
  intros G B ss Hreach.
  induction Hreach as [now | a ss Hreach (Icap_a & Icap_h & Icap_p)].
  - cbn. repeat split; lia.
  - session_cases G B a ss;
      unfold pending_count in *;
      cbn [run_action start_simulation pause_simulation reset_simulation init_state
           log_audit ss_audit ss_history ss_proposals filter List.length] in *;
      repeat split;
      try assumption; try apply py_last_length; try lia.
    + destruct Haudit as [-> | (e' & ->)]; [assumption | apply py_last_length].
    + rewrite filter_app, length_app. unfold pending_count in Hroom.
      cbn [ss_proposals] in Hroom.
      cbn [filter]. destruct (is_pending p); cbn [List.length]; lia.
    + eapply Nat.le_trans; [|exact Icap_p].
      apply pending_after_update. destruct d; discriminate.
Qed.

Lemma reachable_caps_witness :
  (List.length (ss_history (run_action (G := Z) (AutoTick (mkClock 1 1 1 1 1 1))
                              (run_action (G := Z) (PressStart 0 0) (init_state 0))))
   <= 600)%nat.
Proof.
  refine (proj1 (proj2 (reachable_caps Z LcgGenerator _ _))).
  apply reachable_action, reachable_action, reachable_init.
Defined.

Lemma ids_upto_snoc (n : nat) : ids_upto (S n) = ids_upto n ++ [Z.of_nat (S n)].
Proof.
  unfold ids_upto. rewrite seq_S, map_app. reflexivity.
Qed.

Lemma find_proposal_in_run (ps : list Proposal) (a n i : nat) (p : Proposal) :
  map proposal_id ps = map Z.of_nat (seq a n) ->
  nth_error ps i = Some p ->
  proposal_id p = Z.of_nat (a + i) /\ find_proposal (proposal_id p) ps = Some i.
Proof.
  revert a n i. induction ps as [| q ps IH]; intros a n i Hids Hnth.
  - destruct i; discriminate.
  - destruct n as [| n]; [discriminate|]. cbn [seq map] in Hids.
    injection Hids as Hq Hrest. destruct i as [| i]; cbn in Hnth.
    + injection Hnth as <-. rewrite Nat.add_0_r. split; [exact Hq|].
      cbn [find_proposal]. now rewrite Z.eqb_refl.
    + destruct (IH (S a) n i Hrest Hnth) as [Hid Hfind].
      split; [rewrite Hid; f_equal; lia|].
      cbn [find_proposal]. rewrite Hfind.
      destruct (Z.eqb_spec (proposal_id q) (proposal_id p)) as [Heq | _];
        [|reflexivity].
      rewrite Hq, Hid in Heq. lia.
Qed.

Lemma reachable_ids_inv (G : Type) (B : BitGenerator G) (ss : SessionState) :
  reachable ss ->
  map proposal_id (ss_proposals ss) = ids_upto (List.length (ss_proposals ss))
  /\ ss_next_proposal_id ss = (Z.of_nat (List.length (ss_proposals ss)) + 1)%Z.
Proof.
  intro Hreach. induction Hreach as [now | a ss Hreach (Iids & Inext)].
  - split; reflexivity.
  - session_cases G B a ss;
      cbn [run_action start_simulation pause_simulation reset_simulation
           init_state log_audit ss_proposals ss_next_proposal_id map
           List.length];
      try (split; [assumption | assumption]);
      try (split; reflexivity).
    + rewrite map_app, length_app, Nat.add_comm. cbn [List.length Nat.add map].
      rewrite ids_upto_snoc, Iids, Hid. cbn [ss_next_proposal_id].
      rewrite Inext. split; [f_equal; f_equal; lia | lia].
    + rewrite update_at_length, update_at_map by reflexivity.
      split; assumption.
Qed.

(** X18.  In every reachable state the proposals carry the ids 1, 2, ...
    in the order they were raised and the counter is one more than their
    number.  So ids are unique, and looking a proposal up by its id, as the
    select box does, finds exactly its own position. *)
Theorem reachable_ids_are_positions :
  forall (G : Type) (B : BitGenerator G) (ss : SessionState),
    reachable ss ->
    map proposal_id (ss_proposals ss) = ids_upto (List.length (ss_proposals ss))
    /\ ss_next_proposal_id ss = (Z.of_nat (List.length (ss_proposals ss)) + 1)%Z
    /\ (forall (i : nat) (p : Proposal),
           nth_error (ss_proposals ss) i = Some p ->
           proposal_id p = Z.of_nat (S i)
           /\ find_proposal (proposal_id p) (ss_proposals ss) = Some i).
Proof.
  intros G B ss Hreach.
  destruct (reachable_ids_inv G B ss Hreach) as [Hids Hnext].
  split; [exact Hids|]. split; [exact Hnext|].
  intros i p Hnth. unfold ids_upto in Hids.
  destruct (find_proposal_in_run _ 1 _ i p Hids Hnth) as [Hid Hfind].
  split; [exact Hid | exact Hfind].
Qed.

Lemma reachable_ids_are_positions_witness :
  ss_next_proposal_id
    (run_action (G := Z) (AutoTick (mkClock 1 1 1 1 1 1))
       (run_action (G := Z) (PressStart 0 0) (init_state 0)))
  = (Z.of_nat
       (List.length
          (ss_proposals
             (run_action (G := Z) (AutoTick (mkClock 1 1 1 1 1 1))
                (run_action (G := Z) (PressStart 0 0) (init_state 0))))) + 1)%Z.
Proof.
  refine (proj1 (proj2 (reachable_ids_are_positions Z LcgGenerator _ _))).
  apply reachable_action, reachable_action, reachable_init.
Defined.

Lemma nth_error_py_last {A : Type} (n k : nat) (xs : list A) :
  nth_error (py_last n xs) k = nth_error xs (List.length xs - n + k).
Proof.
  unfold py_last. apply nth_error_skipn.
Qed.

Lemma py_last_length_eq {A : Type} (n : nat) (xs : list A) :
  List.length (py_last n xs) = Nat.min n (List.length xs).
Proof.
  unfold py_last. rewrite length_skipn. lia.
Qed.

Lemma history_after_tick (h : list TelemetryRow) (r : TelemetryRow) (t : Z) :
  (0 <= t)%Z ->
  List.length h = Nat.min 600 (Z.to_nat t) ->
  (forall k x, nth_error h k = Some x ->
               tick x = (t - Z.of_nat (List.length h) + 1 + Z.of_nat k)%Z) ->
  tick r = (t + 1)%Z ->
  List.length (py_last 600 (h ++ [r])) = Nat.min 600 (Z.to_nat (t + 1))
  /\ (forall k x,
         nth_error (py_last 600 (h ++ [r])) k = Some x ->
         tick x = (t + 1 - Z.of_nat (List.length (py_last 600 (h ++ [r]))) + 1
                   + Z.of_nat k)%Z).
Proof.
  intros Hpos Hlen Hcons Hr.
  assert (Hlen' : List.length (py_last 600 (h ++ [r]))
                  = Nat.min 600 (List.length h + 1)).
  { rewrite py_last_length_eq, length_app. reflexivity. }
  split.
  - rewrite Hlen', Hlen. lia.
  - intros k x Hk. rewrite Hlen'. rewrite nth_error_py_last, length_app in Hk.
    cbn [List.length] in Hk.
    destruct (Nat.lt_ge_cases (List.length h + 1 - 600 + k) (List.length h))
      as [Hin | Hout].
    + rewrite nth_error_app1 in Hk by exact Hin.
      rewrite (Hcons _ _ Hk). lia.
    + rewrite nth_error_app2 in Hk by exact Hout.
      destruct (List.length h + 1 - 600 + k - List.length h)%nat as [| m] eqn:Em;
        cbn in Hk; [|destruct m; discriminate].
      injection Hk as <-. rewrite Hr. lia.
Qed.

(** X19.  In every reachable state the tick counter is not negative, the
    history holds the last [min(600, tick)] rows, and those rows carry
    consecutive tick numbers that end at the session tick; in particular
    tick numbers strictly increase along the history. *)
Theorem reachable_history_ticks :
  forall (G : Type) (B : BitGenerator G) (ss : SessionState),
    reachable ss ->
    (0 <= ss_tick ss)%Z
    /\ List.length (ss_history ss) = Nat.min 600 (Z.to_nat (ss_tick ss))
    /\ ticks_consecutive ss
    /\ (forall (j k : nat) (rj rk : TelemetryRow),
           nth_error (ss_history ss) j = Some rj ->
           nth_error (ss_history ss) k = Some rk ->
           (j < k)%nat -> (tick rj < tick rk)%Z).
Proof.
  intros G B ss Hreach.
  assert (Hinv : (0 <= ss_tick ss)%Z
                 /\ List.length (ss_history ss) = Nat.min 600 (Z.to_nat (ss_tick ss))
                 /\ ticks_consecutive ss).
  { induction Hreach as [now | a ss Hreach (Ipos & Ilen & Icons)].
    - repeat split; try reflexivity. intros k r Hk. destruct k; discriminate.
    - assert (Hafter : forall c,
                 (0 <= ss_tick ss + 1)%Z
                 /\ List.length (py_last 600 (ss_history ss ++ [new_row c ss]))
                    = Nat.min 600 (Z.to_nat (ss_tick ss + 1))
                 /\ (forall k x,
                        nth_error (py_last 600 (ss_history ss ++ [new_row c ss])) k
                        = Some x ->
                        tick x
                        = (ss_tick ss + 1
                           - Z.of_nat (List.length
                                         (py_last 600
                                            (ss_history ss ++ [new_row c ss])))
                           + 1 + Z.of_nat k)%Z)).
      { intro c. split; [lia|].
        apply history_after_tick; try assumption.
        apply (new_row_consistent G B c ss). }
      session_cases G B a ss; unfold ticks_consecutive;
        cbn [run_action start_simulation pause_simulation reset_simulation
             init_state log_audit ss_tick ss_history];
        try (repeat split; assumption);
        try (exact (Hafter c)).
      repeat split; try reflexivity. intros k r Hk. destruct k; discriminate. }
  destruct Hinv as (Hpos & Hlen & Hcons).
  repeat split; try assumption.
  intros j k rj rk Hj Hk Hjk. rewrite (Hcons _ _ Hj), (Hcons _ _ Hk). lia.
Qed.

Lemma reachable_history_ticks_witness :
  ticks_consecutive
    (run_action (G := Z) (AutoTick (mkClock 1 1 1 1 1 1))
       (run_action (G := Z) (PressStart 0 0) (init_state 0))).
Proof.
  refine (proj1 (proj2 (proj2 (reachable_history_ticks Z LcgGenerator _ _)))).
  apply reachable_action, reachable_action, reachable_init.
Defined.

Lemma produced_row_facts (G : Type) (B : BitGenerator G) (r : TelemetryRow) :
  produced r ->
  distance_or_sentinel (obstacle_distance_m r)
  /\ state r = classify_state (overall_risk r).
Proof.
  intro Hprod. split.
  - unfold distance_or_sentinel.
    induction Hprod as [tk base_ts | tk base_ts prev Hprev IH]; unfold generate_tick.
    + pose proof (evolve_obstacle_distance G B (tk + 1) base_ts
                    (default_rng (seed_of base_ts)) (initial_working None)) as Hstep.
      cbv zeta in Hstep.
      set (d' := obstacle_distance_m _) in *. clearbody d'.
      cbn [initial_working cold_start w_obstacle_distance_m] in Hstep.
      destruct Hstep as [Hs | [Hs | Hs]]; [left; lra | exfalso; lra | right; tauto].
    + pose proof (evolve_obstacle_distance G B (tk + 1) base_ts
                    (default_rng (seed_of base_ts)) (initial_working (Some prev)))
        as Hstep.
      cbv zeta in Hstep.
      set (d' := obstacle_distance_m (evolve _ _ _ _)) in *. clearbody d'.
      cbn [initial_working from_prev w_obstacle_distance_m] in Hstep.
      destruct Hstep as [Hs | [Hs | Hs]]; [left; lra | | right; tauto].
      destruct IH as [IH | IH]; [left; lra | exfalso; lra].
  - destruct Hprod; unfold generate_tick, evolve; name_draws;
      cbn [state overall_risk]; reflexivity.
Qed.

(** X20.  Every row kept in the history of a reachable session was
    produced by the generator, from a cold start or from the row before it;
    so each carries an obstacle distance in [6,80] or the sentinel 999 and
    the label that the classifier gives to its own overall risk. *)
Theorem reachable_history_rows :
  forall (G : Type) (B : BitGenerator G) (ss : SessionState),
    reachable ss ->
    forall r : TelemetryRow,
      In r (ss_history ss) ->
      produced r
      /\ distance_or_sentinel (obstacle_distance_m r)
      /\ state r = classify_state (overall_risk r).
Proof.
  intros G B ss Hreach.
  assert (Hinv : forall r, In r (ss_history ss) -> produced r).
  { induction Hreach as [now | a ss Hreach Irows].
    - intros r [].
    - assert (Hafter : forall c r,
                 In r (py_last 600 (ss_history ss ++ [new_row c ss])) -> produced r).
      { intros c r Hin. apply in_py_last, in_app_or in Hin.
        destruct Hin as [Hold | [<- | []]]; [now apply Irows|].
        unfold new_row. destruct (last_row (ss_history ss)) as [prev|] eqn:Hlast.
        - apply produced_next, Irows, last_row_in, Hlast.
        - apply produced_cold. }
      session_cases G B a ss;
        cbn [run_action start_simulation pause_simulation reset_simulation
             init_state log_audit ss_history];
        try assumption; try (exact (Hafter c)).
      intros r []. }
  intros r Hin. specialize (Hinv r Hin).
  split; [exact Hinv | exact (produced_row_facts G B r Hinv)].
Qed.

Lemma reachable_history_rows_witness :
  Forall (fun r => distance_or_sentinel (obstacle_distance_m r))
    (ss_history
       (run_action (G := Z) (AutoTick (mkClock 1 1 1 1 1 1))
          (run_action (G := Z) (PressStart 0 0) (init_state 0)))).
Proof.
  apply Forall_forall. intros r Hin.
  refine (proj1 (proj2 (reachable_history_rows Z LcgGenerator _ _ r Hin))).
  apply reachable_action, reachable_action, reachable_init.
Defined.

Lemma known_decision_status (d : Decision) :
  known_status (decision_status d) /\ decision_status d <> "PENDING".
Proof.
  unfold known_status. destruct d; cbn; split; try discriminate; tauto.
Qed.

Lemma update_at_nth {A : Type} (i j : nat) (f : A -> A) (xs : list A) (x : A) :
  nth_error xs j = Some x ->
  nth_error (update_at i f xs) j = Some (if Nat.eqb i j then f x else x).
Proof.
  intro Hnth. destruct (Nat.eqb_spec i j) as [-> | Hne].
  - now apply update_at_same.
  - rewrite update_at_other by congruence. exact Hnth.
Qed.

(** X21.  No action but Reset removes, moves or rewrites a proposal: after
    any other action the proposal is at the same position with the same id,
    creation time, title, rationale and snapshot.  A proposal that has left
    PENDING is never changed again, and a status changes only through a
    decision pressed for that proposal's own id, to the status of the
    button.  In every reachable state each status is one of PENDING,
    APPROVED, REJECTED and DEFERRED. *)
Theorem proposals_persist_and_decisions_are_final :
  forall (G : Type) (B : BitGenerator G),
    (forall (a : Action) (ss : SessionState) (i : nat) (p : Proposal),
        (forall t1 t2, a <> PressReset t1 t2) ->
        nth_error (ss_proposals ss) i = Some p ->
        exists p',
          nth_error (ss_proposals (run_action a ss)) i = Some p'
          /\ proposal_id p' = proposal_id p
          /\ created_ts p' = created_ts p
          /\ title p' = title p
          /\ rationale p' = rationale p
          /\ snapshot p' = snapshot p
          /\ (status p <> "PENDING" -> p' = p)
          /\ (status p' <> status p ->
              exists d t, a = PressDecision (proposal_id p) d t
                          /\ status p' = decision_status d))
    /\ (forall ss : SessionState,
           reachable ss ->
           forall p, In p (ss_proposals ss) -> known_status (status p)).
Proof.
  intros G B. split.
  - intros a ss j q Hnoreset Hq.
    assert (Hkeep : exists p',
               Some q = Some p'
               /\ proposal_id p' = proposal_id q
               /\ created_ts p' = created_ts q
               /\ title p' = title q
               /\ rationale p' = rationale q
               /\ snapshot p' = snapshot q
               /\ (status q <> "PENDING" -> p' = q)
               /\ (status p' <> status q ->
                   exists d t, a = PressDecision (proposal_id q) d t
                               /\ status p' = decision_status d)).
    { exists q. repeat split; try reflexivity. intro Hx. contradiction. }
    session_cases G B a ss;
      cbn [run_action start_simulation pause_simulation log_audit ss_proposals];
      try (rewrite Hq; exact Hkeep).
    + exfalso. apply (Hnoreset t_now t_logged). reflexivity.
    + rewrite nth_error_app1 by (apply nth_error_Some; congruence).
      rewrite Hq. exact Hkeep.
    + rewrite (update_at_nth _ _ _ _ _ Hq).
      destruct (Nat.eqb_spec i j) as [-> | Hne]; [|exact Hkeep].
      assert (Hsame : p = q) by congruence. subst p.
      exists (set_status (decision_status d) q).
      repeat split; try reflexivity.
      * intro Hx. contradiction.
      * intros _. exists d, t_logged. rewrite Hid. split; reflexivity.
  - intros ss Hreach.
    induction Hreach as [now | a ss Hreach Iknown].
    + intros p [].
    + session_cases G B a ss;
        cbn [run_action start_simulation pause_simulation reset_simulation
             init_state log_audit ss_proposals];
        try assumption.
      * intros q [].
      * intros q Hin. apply in_app_or in Hin.
        destruct Hin as [Hold | [<- | []]]; [now apply Iknown|].
        left. exact Hstatus.
      * intros q Hin. apply In_nth_error in Hin. destruct Hin as [j Hj].
        assert (Hlen : (j < List.length (ss_proposals ss))%nat).
        { rewrite <- (update_at_length i (set_status (decision_status d))).
          apply nth_error_Some. congruence. }
        destruct (nth_error (ss_proposals ss) j) as [q0|] eqn:Hq0;
          [|apply nth_error_None in Hq0; lia].
        rewrite (update_at_nth _ _ _ _ _ Hq0) in Hj. injection Hj as <-.
        destruct (Nat.eqb i j).
        -- cbn [set_status status]. apply known_decision_status.
        -- apply Iknown. eapply nth_error_In, Hq0.
Qed.

Lemma proposals_persist_and_decisions_are_final_witness :
  exists p',
    nth_error (ss_proposals
                 (run_action (G := Z) (PressDecision 1 Reject 200) one_approved)) 0
    = Some p'
    /\ p' = sample_proposal 1 "APPROVED".
Proof.
  destruct (proj1 (proposals_persist_and_decisions_are_final Z LcgGenerator)
              (PressDecision 1 Reject 200) one_approved 0%nat
              (sample_proposal 1 "APPROVED"))
    as (p' & Hnth & _ & _ & _ & _ & _ & Hfinal & _).
  - discriminate.
  - reflexivity.
  - exists p'. split; [exact Hnth | apply Hfinal; discriminate].
Defined.

(** ** The select box *)

Lemma plain_digits (d : Decimal.uint) : plain (NilEmpty.string_of_uint d) = true.
Proof.
  induction d; cbn; try reflexivity; exact IHd.
Qed.

Lemma plain_string_of_Z (z : Z) : plain (string_of_Z z) = true.
Proof.
  unfold string_of_Z, NilZero.string_of_int, NilZero.string_of_uint.
  destruct (Z.to_int z) as [d | d]; destruct d; cbn; try reflexivity;
    apply plain_digits.
Qed.

Lemma first_word_plain (s rest : string) :
  plain s = true -> first_word (s ++ String " " rest) = s.
Proof.
  induction s as [| c s IH]; cbn; [reflexivity|].
  intro Hp. apply andb_true_iff in Hp. destruct Hp as [Hc Hs].
  apply andb_true_iff in Hc. destruct Hc as [Hsp _].
  apply negb_true_iff in Hsp. rewrite Hsp. now rewrite IH.
Qed.

Lemma drop_hashes_plain (s : string) : plain s = true -> drop_hashes s = s.
Proof.
  induction s as [| c s IH]; cbn; [reflexivity|].
  intro Hp. apply andb_true_iff in Hp. destruct Hp as [Hc Hs].
  apply andb_true_iff in Hc. destruct Hc as [_ Hh].
  apply negb_true_iff in Hh. rewrite Hh. now rewrite IH.
Qed.

Lemma py_int_of_string_of_Z (z : Z) : py_int_of_string (string_of_Z z) = Some z.
Proof.
  unfold py_int_of_string, string_of_Z.
  rewrite NilZero.isi.
  - cbn [option_map]. now rewrite DecimalZ.of_to.
  - destruct z; cbn; try discriminate.
    intro Hx. injection Hx as Hx. now apply DecimalPos.Unsigned.to_uint_nonnil in Hx.
  - destruct z; cbn; try discriminate.
    intro Hx. injection Hx as Hx. now apply DecimalPos.Unsigned.to_uint_nonnil in Hx.
Qed.

Lemma pid_of_label_of (p : Proposal) : pid_of_label (label_of p) = Some (proposal_id p).
Proof.
  unfold pid_of_label, label_of.
  change ("#" ++ string_of_Z (proposal_id p) ++ " [" ++ status p ++ "] " ++ title p)%string
    with (String "#" (string_of_Z (proposal_id p)
                      ++ String " " ("[" ++ status p ++ "] " ++ title p)))%string.
  cbn [first_word Ascii.eqb Bool.eqb].
  rewrite first_word_plain by apply plain_string_of_Z.
  cbn [drop_hashes Ascii.eqb Bool.eqb].
  rewrite drop_hashes_plain by apply plain_string_of_Z.
  apply py_int_of_string_of_Z.
Qed.

(** X22.  Reading the id back from the label that the select box shows
    gives the proposal's id, whatever its status and title; and in a
    reachable session the lookup by that id lands on the position of the
    labelled proposal, so a decision button acts on the proposal whose label
    is selected. *)
Theorem selected_label_finds_its_proposal :
  (forall p : Proposal, pid_of_label (label_of p) = Some (proposal_id p))
  /\ (forall (G : Type) (B : BitGenerator G) (ss : SessionState) (i : nat)
             (p : Proposal),
         reachable ss ->
         nth_error (ss_proposals ss) i = Some p ->
         exists pid,
           pid_of_label (label_of p) = Some pid
           /\ find_proposal pid (ss_proposals ss) = Some i).
Proof.
  split; [apply pid_of_label_of|].
  intros G B ss i p Hreach Hnth. exists (proposal_id p).
  split; [apply pid_of_label_of|].
  destruct (reachable_ids_inv G B ss Hreach) as [Hids _]. unfold ids_upto in Hids.
  apply (find_proposal_in_run _ 1 _ i p Hids Hnth).
Qed.

Lemma selected_label_finds_its_proposal_witness :
  pid_of_label (label_of (sample_proposal 12 "PENDING")) = Some 12%Z.
Proof.
  apply (proj1 selected_label_finds_its_proposal).
Defined.

(** X23.  Reset forgets the session: whatever came before, after Reset,
    Start and a due step the tick is 1, the history is the single row of a
    cold start, and the proposals are none or one with id 1. *)
Theorem reset_restarts_cold :
  forall (G : Type) (B : BitGenerator G) (t_now t_logged t_start t_start_logged : Q)
         (c : Clock),
    1 <= t_check c - t_start ->
    let ss := simulation_step c
                (start_simulation t_start t_start_logged
                   (reset_simulation t_now t_logged)) in
    ss_tick ss = 1%Z
    /\ ss_history ss = [generate_tick 0 (t_gen c) None]
    /\ (ss_proposals ss = []
        \/ exists p, ss_proposals ss = [p] /\ proposal_id p = 1%Z
                     /\ status p = "PENDING")
    /\ (List.length (ss_audit ss) <= 4)%nat.
Proof.
  intros G B t_now t_logged t_start t_start_logged c Hlate ss. subst ss.
  set (s0 := start_simulation t_start t_start_logged (reset_simulation t_now t_logged)).
  assert (Hdue : step_due c s0 = true).
  { unfold step_due, s0. cbn [start_simulation log_audit ss_running ss_last_update andb].
    apply Qle_bool_iff. unfold DT_SECONDS. lra. }
  destruct (simulation_step_unfold G B c s0 Hdue) as (alerts & Hshape & _ & ->).
  destruct (new_row_consistent G B c s0) as [Htick _].
  match goal with
  | |- context [maybe_generate_proposal ?x ?y ?row ?s] =>
    destruct (maybe_generate_proposal_cases x y row s)
      as [-> | (p & e & _ & Hstatus & Hid & _ & ->)]
  end;
    cbn [ss_tick ss_history ss_proposals ss_audit ss_next_proposal_id] in *;
    (split; [exact Htick|]); (split; [reflexivity|]).
  - split; [left; reflexivity|].
    destruct Hshape as [-> | (a & -> & _)]; cbn; lia.
  - split; [right; exists p; repeat split; assumption|].
    destruct Hshape as [-> | (a & -> & _)]; cbn; lia.
Qed.

Lemma reset_restarts_cold_witness :
  ss_tick (simulation_step (G := Z) (mkClock 5 5 5 5 5 5)
             (start_simulation 3 3 (reset_simulation 2 2))) = 1%Z.
Proof.
  apply (reset_restarts_cold Z LcgGenerator 2 2 3 3 (mkClock 5 5 5 5 5 5)).
  discriminate.
Defined.
